(** * Smart signals: the traffic signal controller and its detection feed

    A shallow embedding of [core/traffic_logic.py] (the signal state
    machine) and of the part of [core/detector.py] the controller reads
    (the per-lane processors and the two query methods), followed by the
    properties of the scheduler established on it.

    Python integers are unbounded, so lane ids, counters and durations are
    [Z]; the [lane_states] dict is a [gmap Z SignalState]; the per-class
    count dicts are association lists in insertion order. *)

From Stdlib Require Import ZArith QArith Lia Sorted.
From stdpp Require Import gmap strings list.

Local Open Scope Z_scope.

(** ** Enumerations of [traffic_logic.py] *)

Inductive SignalState := RED | GREEN | YELLOW.

Inductive SignalMode := NORMAL | EMERGENCY.

Global Instance SignalState_eq_dec : EqDecision SignalState.
Proof. solve_decision. Defined.

Global Instance SignalMode_eq_dec : EqDecision SignalMode.
Proof. solve_decision. Defined.

(** ** The detection system ([detector.py]) *)

(** A frame is an opaque image handle for the controller. *)
Inductive Frame := Image (id : nat).

(** [counts]: a dict from class name to number of vehicles. *)
Definition Counts := list (string * Z).

(** [sum(counts.values())] *)
Definition sum_values (counts : Counts) : Z :=
  foldr (fun kv acc => kv.2 + acc) 0 counts.

(** [LaneVideoProcessor]: the fields the controller can observe. *)
Record LaneVideoProcessor := {
  lane_id : Z;
  video_source : string;
  latest_frame : option Frame;
  latest_counts : Counts;
  is_ambulance : bool
}.

(** [LaneVideoProcessor.__init__] *)
Definition new_processor (i : Z) (path : string) : LaneVideoProcessor :=
  {| lane_id := i; video_source := path; latest_frame := None;
     latest_counts := [("car", 0); ("bus", 0); ("truck", 0); ("motorcycle", 0)]%string;
     is_ambulance := false |}.

(** The state update at the end of one iteration of
    [LaneVideoProcessor.run]: frame, counts and flag are replaced, the
    lane id is not. *)
Definition publish (p : LaneVideoProcessor) (f : option Frame) (c : Counts)
    (a : bool) : LaneVideoProcessor :=
  {| lane_id := lane_id p; video_source := video_source p; latest_frame := f;
     latest_counts := c; is_ambulance := a |}.

(** [LaneVideoProcessor.get_data] *)
Definition get_data (p : LaneVideoProcessor) : option Frame * Counts * bool :=
  (latest_frame p, latest_counts p, is_ambulance p).

Record MultiLaneDetectionSystem := { processors : list LaneVideoProcessor }.

(** The loop of [MultiLaneDetectionSystem.__init__]:
    [for i, path in enumerate(video_paths, 1): if i > 4: break; ...] *)
Fixpoint build_processors (i : Z) (video_paths : list string)
    : list LaneVideoProcessor :=
  match video_paths with
  | [] => []
  | path :: rest =>
      if 4 <? i then [] else new_processor i path :: build_processors (i + 1) rest
  end.

Definition new_detection_system (video_paths : list string)
    : MultiLaneDetectionSystem :=
  {| processors := build_processors 1 video_paths |}.

(** [MultiLaneDetectionSystem.get_lane_data] *)
Definition get_lane_data (det : MultiLaneDetectionSystem) (lane : Z)
    : option Frame * Counts * bool :=
  if (1 <=? lane) && (lane <=? Z.of_nat (length (processors det))) then
    match processors det !! Z.to_nat (lane - 1) with
    | Some p => get_data p
    | None => (None, [], false)
    end
  else (None, [], false).

(** One entry of the dict built by [get_all_lane_data]. *)
Record LaneInfo := {
  frame : option Frame;
  counts : Counts;
  ambulance : bool;
  total : Z
}.

(** [d[k] = v] on a dict kept in insertion order: an existing key keeps its
    position, a new key goes last. *)
Fixpoint dict_set {V : Type} (k : Z) (v : V) (d : list (Z * V)) : list (Z * V) :=
  match d with
  | [] => [(k, v)]
  | (k', v') :: rest =>
      if decide (k' = k) then (k, v) :: rest else (k', v') :: dict_set k v rest
  end.

(** [MultiLaneDetectionSystem.get_all_lane_data] *)
Definition get_all_lane_data (det : MultiLaneDetectionSystem) : list (Z * LaneInfo) :=
  foldl
    (fun data p =>
       let '(f, c, a) := get_data p in
       dict_set (lane_id p)
         {| frame := f; counts := c; ambulance := a; total := sum_values c |} data)
    [] (processors det).

(** ** The controller ([traffic_logic.py]) *)

(** [TrafficSignalController.calculate_green_duration] *)
Definition calculate_green_duration (vehicle_count : Z) : Z :=
  if 15 <? vehicle_count then 60
  else if 5 <=? vehicle_count then 30
  else 15.

(** The controller object: the attributes set by [__init__].  The lock is
    not a field here: each [with self.lock] block is one atomic step of the
    model. *)
Record TrafficSignalController := {
  lane_states : gmap Z SignalState;
  current_lane : Z;
  mode : SignalMode;
  yellow_duration : Z;
  transition_delay : Z;
  running : bool;
  force_emergency_lane : option Z;
  cycle_count : Z;
  emergency_count : Z;
  total_wait_time_saved : Z
}.

(** [TrafficSignalController.__init__] *)
Definition new_controller : TrafficSignalController :=
  {| lane_states := list_to_map [(1, RED); (2, RED); (3, RED); (4, RED)];
     current_lane := 1;
     mode := NORMAL;
     yellow_duration := 3;
     transition_delay := 2;
     running := false;
     force_emergency_lane := None;
     cycle_count := 0;
     emergency_count := 0;
     total_wait_time_saved := 0 |}.

(** Attribute assignments, [self.x = v]. *)
Definition set_lane_states (v : gmap Z SignalState) (c : TrafficSignalController) :=
  {| lane_states := v; current_lane := current_lane c; mode := mode c;
     yellow_duration := yellow_duration c; transition_delay := transition_delay c;
     running := running c; force_emergency_lane := force_emergency_lane c;
     cycle_count := cycle_count c; emergency_count := emergency_count c;
     total_wait_time_saved := total_wait_time_saved c |}.

Definition set_current_lane (v : Z) (c : TrafficSignalController) :=
  {| lane_states := lane_states c; current_lane := v; mode := mode c;
     yellow_duration := yellow_duration c; transition_delay := transition_delay c;
     running := running c; force_emergency_lane := force_emergency_lane c;
     cycle_count := cycle_count c; emergency_count := emergency_count c;
     total_wait_time_saved := total_wait_time_saved c |}.

Definition set_mode (v : SignalMode) (c : TrafficSignalController) :=
  {| lane_states := lane_states c; current_lane := current_lane c; mode := v;
     yellow_duration := yellow_duration c; transition_delay := transition_delay c;
     running := running c; force_emergency_lane := force_emergency_lane c;
     cycle_count := cycle_count c; emergency_count := emergency_count c;
     total_wait_time_saved := total_wait_time_saved c |}.

Definition set_running (v : bool) (c : TrafficSignalController) :=
  {| lane_states := lane_states c; current_lane := current_lane c; mode := mode c;
     yellow_duration := yellow_duration c; transition_delay := transition_delay c;
     running := v; force_emergency_lane := force_emergency_lane c;
     cycle_count := cycle_count c; emergency_count := emergency_count c;
     total_wait_time_saved := total_wait_time_saved c |}.

Definition set_force_emergency_lane (v : option Z) (c : TrafficSignalController) :=
  {| lane_states := lane_states c; current_lane := current_lane c; mode := mode c;
     yellow_duration := yellow_duration c; transition_delay := transition_delay c;
     running := running c; force_emergency_lane := v;
     cycle_count := cycle_count c; emergency_count := emergency_count c;
     total_wait_time_saved := total_wait_time_saved c |}.

Definition set_cycle_count (v : Z) (c : TrafficSignalController) :=
  {| lane_states := lane_states c; current_lane := current_lane c; mode := mode c;
     yellow_duration := yellow_duration c; transition_delay := transition_delay c;
     running := running c; force_emergency_lane := force_emergency_lane c;
     cycle_count := v; emergency_count := emergency_count c;
     total_wait_time_saved := total_wait_time_saved c |}.

Definition set_emergency_count (v : Z) (c : TrafficSignalController) :=
  {| lane_states := lane_states c; current_lane := current_lane c; mode := mode c;
     yellow_duration := yellow_duration c; transition_delay := transition_delay c;
     running := running c; force_emergency_lane := force_emergency_lane c;
     cycle_count := cycle_count c; emergency_count := v;
     total_wait_time_saved := total_wait_time_saved c |}.

Definition set_total_wait_time_saved (v : Z) (c : TrafficSignalController) :=
  {| lane_states := lane_states c; current_lane := current_lane c; mode := mode c;
     yellow_duration := yellow_duration c; transition_delay := transition_delay c;
     running := running c; force_emergency_lane := force_emergency_lane c;
     cycle_count := cycle_count c; emergency_count := emergency_count c;
     total_wait_time_saved := v |}.

(** ** The controller in its environment *)

Inductive Exn := Exception (what : string).

(** The arguments of one [db.log_traffic_cycle] call. *)
Record TrafficLog := {
  log_lane_id : Z;
  vehicle_counts : Counts;
  ambulance_detected : bool;
  green_duration : Z;
  signal_mode : SignalMode
}.

(** One line of console output per [print] of the controller, with the
    values it interpolates. *)
Inductive Msg :=
  | MsgInitialized
  | MsgManualOverride (lane : Z)
  | MsgTransition (from_lane to_lane : Z) (reason : string)
  | MsgYellow (lane d : Z)
  | MsgRed (lane d : Z)
  | MsgGreen (lane : Z)
  | MsgAmbulanceDetected (lane : Z)
  | MsgRule (c : string)
  | MsgCycle (n lane : Z) (m : SignalMode)
  | MsgVehicles (n : Z)
  | MsgBreakdown (c : Counts)
  | MsgAmbulancePresent (a : bool)
  | MsgGreenDuration (d : Z)
  | MsgTimeSaved (d : Z)
  | MsgDbError (e : Exn)
  | MsgEmergencyContinue (lane : Z)
  | MsgEmergencySwitch (lane : Z)
  | MsgEmergencyGreen (lane d : Z)
  | MsgEmergencyDbError (e : Exn)
  | MsgStarted
  | MsgInitialState
  | MsgMode (m : SignalMode)
  | MsgError (e : Exn)
  | MsgStopped
  | MsgStopRequested.

(** One assignment [self.lane_states[lane] = st], with the instant it was
    made and the table it left behind: what a reader holding the lock can
    see from then until the next assignment. *)
Record SignalWrite := {
  at_time : Z;
  on_lane : Z;
  to_state : SignalState;
  table : gmap Z SignalState
}.

(** The controller together with what is observable around it: the seconds
    spent in [time.sleep], the number of accesses to the detection system,
    and the assignments to the signal table, the logger calls that went
    through and the console lines, newest first. *)
Record Machine := {
  ctl : TrafficSignalController;
  clock : Z;
  reads : nat;
  signals : list SignalWrite;
  db : list TrafficLog;
  stdout : list Msg
}.

(** The other threads and collaborators.  [sensors t n] is what the [n]-th
    access to the detection system, made at second [t], finds (or the
    exception it raises); [manual t] are the lanes of the [force_emergency]
    calls made during second [t]; [halt t] tells whether [stop] is called
    during second [t]; [db_fault t] is the exception, if any, a logger call
    at second [t] raises. *)
Record World := {
  sensors : Z -> nat -> Exn + MultiLaneDetectionSystem;
  manual : Z -> list Z;
  halt : Z -> bool;
  db_fault : Z -> option Exn
}.

(** *** A state and exception monad for the controller's methods

    A raised exception keeps the state reached so far, as in Python. *)

Inductive Outcome (A : Type) :=
  | Returned (a : A)
  | Raised (e : Exn).
Arguments Returned {A} a.
Arguments Raised {A} e.

Definition M (A : Type) : Type := Machine -> Outcome A * Machine.

Global Instance M_ret : MRet M := fun A a s => (Returned a, s).

Global Instance M_bind : MBind M := fun A B f m s =>
  match m s with
  | (Returned a, s') => f a s'
  | (Raised e, s') => (Raised e, s')
  end.

(** [try: body except Exception as e: handler(e)] *)
Definition try_except {A : Type} (body : M A) (handler : Exn -> M A) : M A :=
  fun s =>
    match body s with
    | (Raised e, s') => handler e s'
    | r => r
    end.

(** The state a computation leaves behind. *)
Definition exec {A : Type} (m : M A) (s : Machine) : Machine := (m s).2.

Definition act (f : Machine -> Machine) : M unit := fun s => (Returned tt, f s).

(** Reading an attribute, [self.x]. *)
Definition self {A : Type} (f : TrafficSignalController -> A) : M A :=
  fun s => (Returned (f (ctl s)), s).

Definition upd_ctl (f : TrafficSignalController -> TrafficSignalController)
    (s : Machine) : Machine :=
  {| ctl := f (ctl s); clock := clock s; reads := reads s;
     signals := signals s; db := db s; stdout := stdout s |}.

(** Writing an attribute, [self.x = v]. *)
Definition assign (f : TrafficSignalController -> TrafficSignalController) : M unit :=
  act (upd_ctl f).

Definition say (m : Msg) (s : Machine) : Machine :=
  {| ctl := ctl s; clock := clock s; reads := reads s;
     signals := signals s; db := db s; stdout := m :: stdout s |}.

Definition print (m : Msg) : M unit := act (say m).

(** [with self.lock: self.lane_states[lane] = st] *)
Definition write_signal (lane : Z) (st : SignalState) (s : Machine) : Machine :=
  let tbl := <[lane := st]> (lane_states (ctl s)) in
  {| ctl := set_lane_states tbl (ctl s); clock := clock s; reads := reads s;
     signals := {| at_time := clock s; on_lane := lane; to_state := st;
                   table := tbl |} :: signals s;
     db := db s; stdout := stdout s |}.

Definition set_signal (lane : Z) (st : SignalState) : M unit :=
  act (write_signal lane st).

(** [TrafficSignalController.get_lane_state] *)
Definition get_lane_state (c : TrafficSignalController) (lane : Z) : SignalState :=
  default RED (lane_states c !! lane).

(** [TrafficSignalController.get_all_states] *)
Definition get_all_states (c : TrafficSignalController) : gmap Z SignalState :=
  lane_states c.

(** [TrafficSignalController.force_emergency], called from another thread. *)
Definition force_emergency (lane : Z) (s : Machine) : Machine :=
  say (MsgManualOverride lane) (upd_ctl (set_force_emergency_lane (Some lane)) s).

(** [TrafficSignalController.stop], called from another thread. *)
Definition stop (s : Machine) : Machine :=
  say MsgStopRequested (upd_ctl (set_running false) s).

(** One second of [time.sleep]: the clock advances and the calls the other
    threads make during that second take effect. *)
Definition tick (w : World) (s : Machine) : Machine :=
  let t := clock s + 1 in
  let s1 :=
    foldl (fun acc lane => force_emergency lane acc)
      {| ctl := ctl s; clock := t; reads := reads s; signals := signals s;
         db := db s; stdout := stdout s |}
      (manual w t) in
  if halt w t then stop s1 else s1.

Fixpoint ticks (w : World) (n : nat) (s : Machine) : Machine :=
  match n with
  | O => s
  | S n' => ticks w n' (tick w s)
  end.

(** [time.sleep(d)]; every duration the controller sleeps is a positive
    number of whole seconds. *)
Definition sleep (w : World) (d : Z) (s : Machine) : Machine :=
  ticks w (Z.to_nat d) s.

Definition time_sleep (w : World) (d : Z) : M unit := act (sleep w d).

(** An access to [self.detection_system]: the processors as they are at
    this instant, or the exception the access raises. *)
Definition read_sensors (w : World) : M MultiLaneDetectionSystem :=
  fun s =>
    let s' := {| ctl := ctl s; clock := clock s; reads := S (reads s);
                 signals := signals s; db := db s; stdout := stdout s |} in
    match sensors w (clock s) (reads s) with
    | inl e => (Raised e, s')
    | inr det => (Returned det, s')
    end.

(** [self.db.log_traffic_cycle(...)] *)
Definition log_traffic_cycle (w : World) (r : TrafficLog) : M unit :=
  fun s =>
    match db_fault w (clock s) with
    | Some e => (Raised e, s)
    | None =>
        (Returned tt,
         {| ctl := ctl s; clock := clock s; reads := reads s;
            signals := signals s; db := r :: db s; stdout := stdout s |})
    end.

(** Python truth value of [None] or an [int]. *)
Definition truthy (o : option Z) : bool :=
  match o with
  | Some l => negb (l =? 0)
  | None => false
  end.

(** [TrafficSignalController.transition_to_lane] *)
Definition transition_to_lane (w : World) (from_lane to_lane : Z)
    (reason : string) : M unit :=
  print (MsgTransition from_lane to_lane reason);;
  set_signal from_lane YELLOW;;
  y ← self yellow_duration;
  print (MsgYellow from_lane y);;
  time_sleep w y;;
  set_signal from_lane RED;;
  d ← self transition_delay;
  print (MsgRed from_lane d);;
  time_sleep w d;;
  set_signal to_lane GREEN;;
  assign (set_current_lane to_lane);;
  print (MsgGreen to_lane).

(** [TrafficSignalController.handle_normal_cycle] *)
Definition handle_normal_cycle (w : World) : M unit :=
  lane ← self current_lane;
  det ← read_sensors w;
  let '(_, counts, ambulance) := get_lane_data det lane in
  let total_vehicles := sum_values counts in
  (if ambulance then
     print (MsgAmbulanceDetected lane);;
     assign (set_mode EMERGENCY);;
     n ← self emergency_count;
     assign (set_emergency_count (n + 1))
   else mret tt);;
  let green_duration := calculate_green_duration total_vehicles in
  let fixed_time := 60 in
  let wait_time_saved := Z.max 0 (fixed_time - green_duration) in
  saved ← self total_wait_time_saved;
  assign (set_total_wait_time_saved (saved + wait_time_saved));;
  print (MsgRule "=");;
  n ← self cycle_count;
  m ← self mode;
  print (MsgCycle (n + 1) lane m);;
  print (MsgRule "=");;
  print (MsgVehicles total_vehicles);;
  print (MsgBreakdown counts);;
  print (MsgAmbulancePresent ambulance);;
  print (MsgGreenDuration green_duration);;
  print (MsgTimeSaved wait_time_saved);;
  print (MsgRule "=");;
  try_except
    (m ← self mode;
     log_traffic_cycle w
       {| log_lane_id := lane; vehicle_counts := counts;
          ambulance_detected := ambulance; green_duration := green_duration;
          signal_mode := m |})
    (fun e => print (MsgDbError e));;
  time_sleep w green_duration;;
  let next_lane := lane `mod` 4 + 1 in
  transition_to_lane w lane next_lane "Normal Cycle";;
  assign (set_mode NORMAL);;
  n ← self cycle_count;
  assign (set_cycle_count (n + 1)).

(** [TrafficSignalController.handle_emergency_override] *)
Definition handle_emergency_override (w : World) (emergency_lane : Z) : M unit :=
  current ← self current_lane;
  if decide (current = emergency_lane) then
    print (MsgEmergencyContinue emergency_lane)
  else
    print (MsgRule "*");;
    print (MsgEmergencySwitch emergency_lane);;
    print (MsgRule "*");;
    n ← self emergency_count;
    assign (set_emergency_count (n + 1));;
    transition_to_lane w current emergency_lane "AMBULANCE DETECTED";;
    let emergency_duration := 45 in
    print (MsgEmergencyGreen emergency_lane emergency_duration);;
    det ← read_sensors w;
    let '(_, counts, _) := get_lane_data det emergency_lane in
    try_except
      (log_traffic_cycle w
         {| log_lane_id := emergency_lane; vehicle_counts := counts;
            ambulance_detected := true; green_duration := emergency_duration;
            signal_mode := EMERGENCY |})
      (fun e => print (MsgEmergencyDbError e));;
    time_sleep w emergency_duration;;
    n ← self cycle_count;
    assign (set_cycle_count (n + 1));;
    print (MsgRule "*").

(** The loop [for lane_id, data in all_data.items(): if data['ambulance']:
    return lane_id] of [check_emergency_conditions]. *)
Fixpoint first_ambulance (all_data : list (Z * LaneInfo)) : option Z :=
  match all_data with
  | [] => None
  | (lane, data) :: rest =>
      if ambulance data then Some lane else first_ambulance rest
  end.

(** [TrafficSignalController.check_emergency_conditions] *)
Definition check_emergency_conditions (w : World) : M (option Z) :=
  forced ← self force_emergency_lane;
  if truthy forced then
    assign (set_force_emergency_lane None);;
    mret forced
  else
    det ← read_sensors w;
    let all_data := get_all_lane_data det in
    mret (first_ambulance all_data).

(** The statements of [run] before its loop. *)
Definition run_init : M unit :=
  assign (set_running true);;
  set_signal 1 GREEN;;
  assign (set_current_lane 1);;
  print (MsgRule "=");;
  print MsgStarted;;
  print (MsgRule "=");;
  print MsgInitialState;;
  m ← self mode;
  print (MsgMode m);;
  print (MsgRule "=").

(** The [try] block of the loop of [run]. *)
Definition run_try (w : World) : M unit :=
  emergency_lane ← check_emergency_conditions w;
  if truthy emergency_lane then
    assign (set_mode EMERGENCY);;
    handle_emergency_override w (default 0 emergency_lane)
  else
    assign (set_mode NORMAL);;
    handle_normal_cycle w.

(** The body of the [while self.running] loop of [run]: the [try] block
    and its [except Exception] clause. *)
Definition run_body (w : World) : M unit :=
  try_except (run_try w)
    (fun e =>
       print (MsgError e);;
       time_sleep w 5).

Definition run_iteration (w : World) (s : Machine) : Machine :=
  exec (run_body w) s.

Inductive LoopStatus := Exited | StillRunning.

(** The loop of [run], for at most [fuel] iterations. *)
Fixpoint run_loop (w : World) (fuel : nat) (s : Machine) : LoopStatus * Machine :=
  if running (ctl s) then
    match fuel with
    | O => (StillRunning, s)
    | S fuel' => run_loop w fuel' (run_iteration w s)
    end
  else (Exited, say MsgStopped s).

(** [TrafficSignalController.run] *)
Definition run (w : World) (fuel : nat) (s : Machine) : LoopStatus * Machine :=
  run_loop w fuel (exec run_init s).

(** The machine right after [TrafficSignalController(...)]. *)
Definition boot : Machine :=
  {| ctl := new_controller; clock := 0; reads := 0; signals := [];
     db := []; stdout := [MsgInitialized] |}.

(** The result of [get_statistics].  The quotient of the two integers is
    kept as an exact rational. *)
Record Statistics := {
  total_cycles : Z;
  emergency_events : Z;
  wait_time_saved : Z;
  stat_current_lane : Z;
  stat_mode : SignalMode;
  avg_wait_saved_per_cycle : Q
}.

(** [TrafficSignalController.get_statistics] *)
Definition get_statistics (c : TrafficSignalController) : Statistics :=
  {| total_cycles := cycle_count c;
     emergency_events := emergency_count c;
     wait_time_saved := total_wait_time_saved c;
     stat_current_lane := current_lane c;
     stat_mode := mode c;
     avg_wait_saved_per_cycle :=
       if 0 <? cycle_count c
       then (inject_Z (total_wait_time_saved c) / inject_Z (cycle_count c))%Q
       else 0%Q |}.

Arguments sleep : simpl never.

(** ** Vocabulary of the statements *)

(** [after w s' c t rd sg d]: the machine [s'] has controller [c], clock [t],
    read counter [rd], signal history [sg] and logger history [d], up to the
    three things calls from other threads and the console touch: the
    [running] flag, the pending override and the output.  The pending
    override is the one of [c] when nobody calls [force_emergency], and the
    flag is the one of [c] when nobody calls [stop]. *)
Definition after (w : World) (s' : Machine) (c : TrafficSignalController)
    (t : Z) (rd : nat) (sg : list SignalWrite) (d : list TrafficLog) : Prop :=
  exists fl r out,
    s' = {| ctl := set_running r (set_force_emergency_lane fl c);
            clock := t; reads := rd; signals := sg; db := d; stdout := out |}
    /\ ((forall t', manual w t' = []) -> fl = force_emergency_lane c)
    /\ ((forall t', halt w t' = false) -> r = running c).

(** The [except Exception] clause of [run] applied to the outcome of the
    loop body. *)
Definition recover (w : World) (r : Outcome unit * Machine) : Machine :=
  match r with
  | (Returned _, s') => s'
  | (Raised e, s') => sleep w 5 (say (MsgError e) s')
  end.

(** At most one lane of a signal table is GREEN or YELLOW. *)
Definition at_most_one_non_red (tbl : gmap Z SignalState) : Prop :=
  forall l1 l2 st1 st2,
    tbl !! l1 = Some st1 -> st1 <> RED ->
    tbl !! l2 = Some st2 -> st2 <> RED -> l1 = l2.

(** No lane other than [lane] is GREEN or YELLOW. *)
Definition only_lane (tbl : gmap Z SignalState) (lane : Z) : Prop :=
  forall l st, tbl !! l = Some st -> st <> RED -> l = lane.

(** The three assignments of a transition from [a] to [b] started at
    second [t] on table [tbl], newest first. *)
Definition transition_writes (tbl : gmap Z SignalState) (a b t y d : Z)
    : list SignalWrite :=
  [ {| at_time := t + y + d; on_lane := b; to_state := GREEN;
       table := <[b := GREEN]> (<[a := RED]> (<[a := YELLOW]> tbl)) |};
    {| at_time := t + y; on_lane := a; to_state := RED;
       table := <[a := RED]> (<[a := YELLOW]> tbl) |};
    {| at_time := t; on_lane := a; to_state := YELLOW;
       table := <[a := YELLOW]> tbl |} ].

(** What one iteration of the loop can do to the signals: nothing, or one
    transition away from the active lane. *)
Inductive signal_step (s s' : Machine) : Prop :=
  | signal_step_none :
      lane_states (ctl s') = lane_states (ctl s) ->
      current_lane (ctl s') = current_lane (ctl s) ->
      signals s' = signals s ->
      signal_step s s'
  | signal_step_switch (b t y d : Z) :
      lane_states (ctl s') =
        <[b := GREEN]> (<[current_lane (ctl s) := RED]>
          (<[current_lane (ctl s) := YELLOW]> (lane_states (ctl s)))) ->
      current_lane (ctl s') = b ->
      signals s' =
        transition_writes (lane_states (ctl s)) (current_lane (ctl s)) b t y d
        ++ signals s ->
      signal_step s s'.

(** The invariant of the loop on the signals. *)
Definition signals_ok (s : Machine) : Prop :=
  only_lane (lane_states (ctl s)) (current_lane (ctl s))
  /\ Forall (fun x => at_most_one_non_red (table x)) (signals s).

(** The controller after a completed normal cycle that read ambulance flag
    [amb] and computed green duration [g]. *)
Definition normal_cycle_ctl (c : TrafficSignalController) (amb : bool) (g : Z)
    : TrafficSignalController :=
  let lane := current_lane c in
  let next_lane := lane `mod` 4 + 1 in
  {| lane_states :=
       <[next_lane := GREEN]> (<[lane := RED]> (<[lane := YELLOW]> (lane_states c)));
     current_lane := next_lane; mode := NORMAL;
     yellow_duration := yellow_duration c;
     transition_delay := transition_delay c;
     running := running c;
     force_emergency_lane := force_emergency_lane c;
     cycle_count := cycle_count c + 1;
     emergency_count := if amb then emergency_count c + 1 else emergency_count c;
     total_wait_time_saved := total_wait_time_saved c + Z.max 0 (60 - g) |}.

(** The controller after the emergency handler switched to [e_lane];
    [completed] tells whether it ran to its end or stopped at the sensor
    read. *)
Definition emergency_ctl (c : TrafficSignalController) (e_lane : Z)
    (completed : bool) : TrafficSignalController :=
  let cur := current_lane c in
  {| lane_states :=
       <[e_lane := GREEN]> (<[cur := RED]> (<[cur := YELLOW]> (lane_states c)));
     current_lane := e_lane; mode := mode c;
     yellow_duration := yellow_duration c;
     transition_delay := transition_delay c;
     running := running c;
     force_emergency_lane := force_emergency_lane c;
     cycle_count := if completed then cycle_count c + 1 else cycle_count c;
     emergency_count := emergency_count c + 1;
     total_wait_time_saved := total_wait_time_saved c |}.

(** The logger history after a call with record [r] at second [t]. *)
Definition logged (w : World) (t : Z) (r : TrafficLog) (d : list TrafficLog)
    : list TrafficLog :=
  match db_fault w t with
  | Some _ => d
  | None => r :: d
  end.

(** No processor of the detection system reports an ambulance. *)
Definition no_ambulance (det : MultiLaneDetectionSystem) : Prop :=
  Forall (fun p => is_ambulance p = false) (processors det).

(** A world without emergencies: every sensor read succeeds and shows no
    ambulance, and nobody calls [force_emergency]. *)
Definition calm (w : World) : Prop :=
  (forall t n, exists det, sensors w t n = inr det /\ no_ambulance det)
  /\ (forall t, manual w t = []).

(** The active lane at the start of each of the first [k] iterations of the
    loop. *)
Definition active_lanes (w : World) (k : nat) (s : Machine) : list Z :=
  map (fun i => current_lane (ctl (Nat.iter i (run_iteration w) s))) (seq 0 k).

(** Four lanes whose videos show no ambulance. *)
Definition quiet_system : MultiLaneDetectionSystem :=
  new_detection_system ["lane1.mp4"; "lane2.mp4"; "lane3.mp4"; "lane4.mp4"]%string.

(** A world in which nothing happens: the sensors always show the quiet
    system, no call comes from another thread, the logger works. *)
Definition still_world : World :=
  {| sensors := fun _ _ => inr quiet_system;
     manual := fun _ => [];
     halt := fun _ => false;
     db_fault := fun _ => None |}.

(** Lane [l] of the detection system currently reports an ambulance. *)
Definition reports_ambulance (det : MultiLaneDetectionSystem) (l : Z) : Prop :=
  exists p, p ∈ processors det /\ lane_id p = l /\ is_ambulance p = true.

(** The lane ids of the detection system, in processor order. *)
Definition lane_ids (det : MultiLaneDetectionSystem) : list Z :=
  map lane_id (processors det).

(** The dict entry [get_all_lane_data] builds for a processor. *)
Definition lane_entry (p : LaneVideoProcessor) : Z * LaneInfo :=
  (lane_id p,
   {| frame := latest_frame p; counts := latest_counts p;
      ambulance := is_ambulance p; total := sum_values (latest_counts p) |}).

(** The quiet system after lane 3 and then lane 2 published a frame showing
    an ambulance. *)
Definition two_ambulances : MultiLaneDetectionSystem :=
  {| processors :=
       match processors quiet_system with
       | p1 :: p2 :: p3 :: rest =>
           p1 :: publish p2 (Some (Image 7)) [("car", 2)]%string true
              :: publish p3 (Some (Image 5)) [("car", 6); ("bus", 1)]%string true
              :: rest
       | ps => ps
       end |}.

(** [sum(max(0, 60 - d) for d in durations)] *)
Definition wait_saved_sum (durations : list Z) : Z :=
  foldr (fun d acc => Z.max 0 (60 - d) + acc) 0 durations.

(** The oldest assignment to the lane states made between [s] and [s']. *)
Definition first_write_after (s s' : Machine) : option SignalWrite :=
  last (take (length (signals s') - length (signals s)) (signals s')).

(** A world in which every access to the detection system fails. *)
Definition blind_world : World :=
  {| sensors := fun _ _ => inl (Exception "camera offline");
     manual := fun _ => [];
     halt := fun _ => false;
     db_fault := fun _ => None |}.

(** The still world, except that [force_emergency(3)] is called during
    second 5. *)
Definition rush_world : World :=
  {| sensors := fun _ _ => inr quiet_system;
     manual := fun t => if t =? 5 then [3] else [];
     halt := fun _ => false;
     db_fault := fun _ => None |}.

(** An emergency arises strictly inside a wait of [g] seconds started in
    [s]: a [force_emergency] call, or an ambulance shown by a lane other
    than the active one. *)
Definition emergency_during_wait (w : World) (s : Machine) (g : Z) : Prop :=
  exists t,
    clock s < t < clock s + g
    /\ (manual w t <> []
        \/ exists n det l,
             sensors w t n = inr det /\ l <> current_lane (ctl s)
             /\ reports_ambulance det l).

(** The green wait of the normal cycle started in [s] is preempted: when an
    emergency arises during the wait, the first change of the signals comes
    before the green duration has elapsed. *)
Definition green_wait_preemptible (w : World) (s : Machine) : Prop :=
  forall det,
    sensors w (clock s) (reads s) = inr det ->
    let g := calculate_green_duration
               (sum_values (get_lane_data det (current_lane (ctl s))).1.2) in
    emergency_during_wait w s g ->
    exists x,
      first_write_after s (exec (handle_normal_cycle w) s) = Some x
      /\ at_time x < clock s + g.

(** ** More of [detector.py]: the detector and the processor loop *)

(** What one inference gives for a frame, as far as [detect] looks at it:
    the class id [int(box.cls[0])] of every box of [results.boxes], in
    order, and the picture [results.plot()] draws. *)
Record Results := { boxes : list Z; plot : Frame }.

(** The loaded YOLO model: its class-name dict [model.names] and the
    inference [model(frame, conf=..., verbose=False)[0]]. *)
Record YOLO := {
  names : gmap Z string;
  infer : Q -> Frame -> Results
}.

Record VehicleDetector := {
  model : YOLO;
  confidence : Q;
  vehicle_classes : list Z;
  class_names : gmap Z string
}.

(** [VehicleDetector.__init__] *)
Definition new_detector (m : YOLO) (conf : Q) : VehicleDetector :=
  {| model := m; confidence := conf;
     vehicle_classes := [2; 3; 5; 7];
     class_names :=
       list_to_map [(2, "car"); (3, "motorcycle"); (5, "bus"); (7, "truck")]%string |}.

(** [VehicleDetector.update_confidence] *)
Definition update_confidence (new_conf : Q) (d : VehicleDetector) : VehicleDetector :=
  {| model := model d; confidence := new_conf;
     vehicle_classes := vehicle_classes d; class_names := class_names d |}.

(** [counts.get(name, dflt)] *)
Fixpoint counts_get (name : string) (dflt : Z) (c : Counts) : Z :=
  match c with
  | [] => dflt
  | (k, v) :: rest => if decide (k = name) then v else counts_get name dflt rest
  end.

(** [counts[name] = v] *)
Fixpoint counts_set (name : string) (v : Z) (c : Counts) : Counts :=
  match c with
  | [] => [(name, v)]
  | (k, v') :: rest =>
      if decide (k = name) then (name, v) :: rest else (k, v') :: counts_set name v rest
  end.

(** The body of the loop [for box in results.boxes] of [detect]; the dict
    [model.names] has a [get], so the [hasattr] test holds. *)
Definition count_box (d : VehicleDetector) (acc : Counts * bool) (cls_id : Z)
    : Counts * bool :=
  let '(counts, ambulance_detected) := acc in
  let counts :=
    if bool_decide (cls_id ∈ vehicle_classes d) then
      let name := default "vehicle"%string (class_names d !! cls_id) in
      counts_set name (counts_get name 0 counts + 1) counts
    else counts in
  let ambulance_detected :=
    if decide (names (model d) !! cls_id = Some "ambulance"%string) then true
    else ambulance_detected in
  (counts, ambulance_detected).

(** [VehicleDetector.detect] *)
Definition detect (d : VehicleDetector) (frame : option Frame)
    : option Frame * Counts * bool :=
  match frame with
  | None => (None, [], false)
  | Some f =>
      let results := infer (model d) (confidence d) f in
      let '(counts, ambulance_detected) :=
        foldl (count_box d)
          ([("car", 0); ("bus", 0); ("truck", 0); ("motorcycle", 0)]%string, false)
          (boxes results) in
      (Some (plot results), counts, ambulance_detected)
  end.

(** One iteration of the loop of [LaneVideoProcessor.run].  [read] is what
    [cap.read()] gave: no frame at the end of the video, after which the
    video is rewound and the loop continues, or a frame, which is resized,
    run through the detector and published. *)
Definition processor_step (d : VehicleDetector) (resize : Frame -> Frame)
    (p : LaneVideoProcessor) (read : option Frame) : LaneVideoProcessor :=
  match read with
  | None => p
  | Some f =>
      let '(annotated_frame, counts, ambulance) := detect d (Some (resize f)) in
      publish p annotated_frame counts ambulance
  end.

(** The loop of [LaneVideoProcessor.run] over the reads made until [stop]. *)
Definition processor_run (d : VehicleDetector) (resize : Frame -> Frame)
    (p : LaneVideoProcessor) (reads_made : list (option Frame)) : LaneVideoProcessor :=
  foldl (processor_step d resize) p reads_made.

(** [data.get(k)] on the dict of [get_all_lane_data]. *)
Fixpoint dict_get {V : Type} (k : Z) (d : list (Z * V)) : option V :=
  match d with
  | [] => None
  | (k', v) :: rest => if decide (k' = k) then Some v else dict_get k rest
  end.

(** ** More of [database.py] *)

(** The result of [get_today_stats]. *)
Record TodayStats := {
  today_total_cycles : Z;
  today_total_vehicles : Z;
  today_emergency_events : Z;
  today_wait_time_saved : Z
}.

(** [DatabaseManager.get_today_stats], on the rows [logs] its query
    returns.  The green durations, stored in a float column, are the whole
    numbers the controller logged. *)
Definition get_today_stats (logs : list TrafficLog) : TodayStats :=
  {| today_total_cycles := Z.of_nat (length logs);
     today_total_vehicles :=
       foldr (fun l acc =>
                (match vehicle_counts l with
                 | [] => 0
                 | c => sum_values c
                 end) + acc) 0 logs;
     today_emergency_events :=
       foldr (fun l acc =>
                if decide (signal_mode l = EMERGENCY) then 1 + acc else acc) 0 logs;
     today_wait_time_saved :=
       match logs with
       | [] => 0
       | _ => foldr (fun l acc => Z.max 0 (60 - green_duration l) + acc) 0 logs
       end |}.

(** The number of boxes of class [k]. *)
Definition boxes_of_class (k : Z) (bs : list Z) : Z :=
  Z.of_nat (length (filter (fun c => c = k) bs)).

(** A model with the four vehicle classes of COCO among its names and no
    ambulance class, which finds two cars and a truck in every frame. *)
Definition coco_model : YOLO :=
  {| names :=
       list_to_map [(0, "person"); (2, "car"); (3, "motorcycle"); (5, "bus");
                    (7, "truck")]%string;
     infer := fun _ f => {| boxes := [2; 0; 7; 2]; plot := f |} |}.

(** What one iteration of the loop does to the counters and to the log:
    nothing (the emergency lane is the active lane, or an exception came
    before anything was counted), a normal cycle, an emergency switch, or
    an emergency switch cut short by a failing access to the detection
    system. *)
Inductive iteration_effect (w : World) (s s' : Machine) : Prop :=
  | effect_none :
      cycle_count (ctl s') = cycle_count (ctl s) ->
      emergency_count (ctl s') = emergency_count (ctl s) ->
      total_wait_time_saved (ctl s') = total_wait_time_saved (ctl s) ->
      db s' = db s ->
      clock s <= clock s' ->
      iteration_effect w s s'
  | effect_normal (cnt : Counts) (amb : bool) (t : Z) :
      cycle_count (ctl s') = cycle_count (ctl s) + 1 ->
      emergency_count (ctl s') =
        (if amb then emergency_count (ctl s) + 1 else emergency_count (ctl s)) ->
      total_wait_time_saved (ctl s') =
        total_wait_time_saved (ctl s)
        + Z.max 0 (60 - calculate_green_duration (sum_values cnt)) ->
      db s' =
        logged w t
          {| log_lane_id := current_lane (ctl s); vehicle_counts := cnt;
             ambulance_detected := amb;
             green_duration := calculate_green_duration (sum_values cnt);
             signal_mode := if amb then EMERGENCY else NORMAL |} (db s) ->
      clock s <= clock s' ->
      iteration_effect w s s'
  | effect_emergency (l : Z) (cnt : Counts) (t : Z) :
      cycle_count (ctl s') = cycle_count (ctl s) + 1 ->
      emergency_count (ctl s') = emergency_count (ctl s) + 1 ->
      total_wait_time_saved (ctl s') = total_wait_time_saved (ctl s) ->
      db s' =
        logged w t
          {| log_lane_id := l; vehicle_counts := cnt; ambulance_detected := true;
             green_duration := 45; signal_mode := EMERGENCY |} (db s) ->
      clock s <= clock s' ->
      iteration_effect w s s'
  | effect_emergency_failed (e : Exn) (t : Z) (n : nat) :
      sensors w t n = inl e ->
      cycle_count (ctl s') = cycle_count (ctl s) ->
      emergency_count (ctl s') = emergency_count (ctl s) + 1 ->
      total_wait_time_saved (ctl s') = total_wait_time_saved (ctl s) ->
      db s' = db s ->
      clock s <= clock s' ->
      iteration_effect w s s'.

(** A record as the controller hands it to the logger: an emergency switch
    (45 s, mode EMERGENCY, ambulance flag set), or a normal cycle, whose
    duration is the one computed from the counts in the record and whose
    mode is EMERGENCY exactly when its ambulance flag is set. *)
Definition well_formed_log (r : TrafficLog) : Prop :=
  (green_duration r = 45 /\ signal_mode r = EMERGENCY
   /\ ambulance_detected r = true)
  \/ (green_duration r = calculate_green_duration (sum_values (vehicle_counts r))
      /\ signal_mode r = (if ambulance_detected r then EMERGENCY else NORMAL)).

(** The records of emergency switches among [logs]. *)
Definition emergency_switches (logs : list TrafficLog) : Z :=
  Z.of_nat (length (filter (fun r => green_duration r = 45) logs)).

(** The quiet system after lane 1 published a frame showing an ambulance. *)
Definition ambulance_in_lane_1 : MultiLaneDetectionSystem :=
  {| processors :=
       match processors quiet_system with
       | p1 :: rest => publish p1 (Some (Image 9)) [("truck", 1)]%string true :: rest
       | ps => ps
       end |}.

(** A world whose sensors always show an ambulance in lane 1 and in which
    nothing else happens. *)
Definition siren_world : World :=
  {| sensors := fun _ _ => inr ambulance_in_lane_1;
     manual := fun _ => [];
     halt := fun _ => false;
     db_fault := fun _ => None |}.


(** A one-lane detection system whose processor has run the COCO model on
    two frames, with the end of the video after each. *)
Definition filmed_lane : MultiLaneDetectionSystem :=
  {| processors :=
       [processor_run (new_detector coco_model (1 # 2)) (fun f => f)
          (new_processor 1 "lane1.mp4")
          [Some (Image 1); None; Some (Image 2); None]] |}.

(** A world whose sensors always show the filmed lane and in which nothing
    else happens. *)
Definition filmed_world : World :=
  {| sensors := fun _ _ => inr filmed_lane;
     manual := fun _ => [];
     halt := fun _ => false;
     db_fault := fun _ => None |}.

(** Every lane of a signal table is RED. *)
Definition all_red (tbl : gmap Z SignalState) : Prop :=
  forall l st, tbl !! l = Some st -> st = RED.

(** A history of assignments to the lane states, newest first, is made of
    the first GREEN followed by whole transitions: each later GREEN comes
    2 s after a RED that left every lane RED, which comes 3 s after the
    YELLOW of the same lane, the lane made GREEN just before. *)
Fixpoint phases_ok (sg : list SignalWrite) : Prop :=
  match sg with
  | [g0] => to_state g0 = GREEN
  | g :: r :: y :: rest =>
      to_state g = GREEN /\ to_state r = RED /\ to_state y = YELLOW
      /\ on_lane r = on_lane y
      /\ at_time r = at_time y + 3
      /\ at_time g = at_time r + 2
      /\ all_red (table r)
      /\ (exists g', head rest = Some g' /\ on_lane g' = on_lane y)
      /\ phases_ok rest
  | _ => False
  end.

(** * Properties *)

(** ** What the other threads can and cannot change *)

Lemma after_refl w s : after w s (ctl s) (clock s) (reads s) (signals s) (db s).
Proof.
  exists (force_emergency_lane (ctl s)), (running (ctl s)), (stdout s).
  destruct s as [[] ? ? ? ? ?]; cbn. auto.
Qed.

Lemma force_calls_shape ls : forall s,
  exists fl out,
    foldl (fun acc lane => force_emergency lane acc) s ls =
      {| ctl := set_force_emergency_lane fl (ctl s); clock := clock s;
         reads := reads s; signals := signals s; db := db s; stdout := out |}
    /\ (ls = [] -> fl = force_emergency_lane (ctl s)).
Proof.
  induction ls as [|l ls IH]; intros s; cbn.
  - exists (force_emergency_lane (ctl s)), (stdout s).
    destruct s as [[] ? ? ? ? ?]; cbn; auto.
  - destruct (IH (force_emergency l s)) as (fl & out & -> & _).
    exists fl, out. split; [|discriminate].
    destruct s as [[] ? ? ? ? ?]; reflexivity.
Qed.

Lemma tick_after w s :
  after w (tick w s) (ctl s) (clock s + 1) (reads s) (signals s) (db s).
Proof.
  unfold tick.
  match goal with |- context [foldl ?f ?a ?l] =>
    destruct (force_calls_shape l a) as (fl & out & -> & Hfl) end.
  cbn in *.
  destruct (halt w (clock s + 1)) eqn:Hh.
  - exists fl, false, (MsgStopRequested :: out). split; [|split].
    + destruct s as [[] ? ? ? ? ?]; reflexivity.
    + intros Hm. apply Hfl, Hm.
    + intros Hn. rewrite Hn in Hh. discriminate.
  - exists fl, (running (ctl s)), out. split; [|split].
    + destruct s as [[] ? ? ? ? ?]; reflexivity.
    + intros Hm. apply Hfl, Hm.
    + reflexivity.
Qed.

Lemma ticks_after w n : forall s,
  after w (ticks w n s) (ctl s) (clock s + Z.of_nat n) (reads s) (signals s) (db s).
Proof.
  induction n as [|n IH]; intros s.
  - replace (clock s + Z.of_nat 0) with (clock s) by lia. apply after_refl.
  - cbn [ticks].
    destruct (tick_after w s) as (fl & r & out & E & Hfl & Hr).
    destruct (IH (tick w s)) as (fl' & r' & out' & E' & Hfl' & Hr').
    rewrite E' , E. clear E'. rewrite E in Hfl', Hr'. cbn in *.
    exists fl', r', out'. split; [|split].
    + replace (clock s + Z.of_nat (S n)) with (clock s + 1 + Z.of_nat n) by lia.
      destruct s as [[] ? ? ? ? ?]; reflexivity.
    + intros Hm. rewrite (Hfl' Hm). auto.
    + intros Hn. rewrite (Hr' Hn). auto.
Qed.

(** [time.sleep(d)] advances the clock by [d] and leaves the controller to
    the other threads meanwhile. *)
Lemma sleep_after w d s :
  after w (sleep w d s) (ctl s) (clock s + Z.max 0 d) (reads s) (signals s) (db s).
Proof.
  unfold sleep. replace (Z.max 0 d) with (Z.of_nat (Z.to_nat d)) by lia.
  apply ticks_after.
Qed.

Lemma calculate_green_duration_cases (v : Z) :
  (15 < v /\ calculate_green_duration v = 60)
  \/ (5 <= v <= 15 /\ calculate_green_duration v = 30)
  \/ (v < 5 /\ calculate_green_duration v = 15).
Proof.
  unfold calculate_green_duration.
  destruct (15 <? v) eqn:H1; [left; lia|].
  destruct (5 <=? v) eqn:H2; [right; left; lia | right; right; lia].
Qed.

Lemma calculate_green_duration_range (v : Z) :
  15 <= calculate_green_duration v <= 60.
Proof. destruct (calculate_green_duration_cases v) as [[_ ->]|[[_ ->]|[_ ->]]]; lia. Qed.

(** Record projections and matches are computed, arithmetic is left alone. *)
Ltac norm := cbn -[calculate_green_duration Z.modulo Z.max Z.add Z.sub].
Tactic Notation "norm" "in" hyp(H) :=
  cbn -[calculate_green_duration Z.modulo Z.max Z.add Z.sub] in H.

(** All record updates are carried out, innermost first, so that a machine
    becomes one explicit record. *)
Ltac flatten :=
  cbv beta iota zeta delta
    [upd_ctl say write_signal set_cycle_count set_mode set_current_lane
     set_lane_states set_running set_force_emergency_lane set_emergency_count
     set_total_wait_time_saved ctl clock reads signals db stdout
     lane_states current_lane mode yellow_duration transition_delay running
     force_emergency_lane cycle_count emergency_count total_wait_time_saved
     fst snd].

(** Unfolding of the monadic plumbing. *)
Ltac run_monad :=
  unfold exec, transition_to_lane, print, set_signal, time_sleep, assign, self,
    act, try_except, mbind, M_bind, mret, M_ret, log_traffic_cycle, read_sensors;
  norm.

(** Replaces an innermost [sleep] by the machine it leaves behind. *)
Ltac step_sleep :=
  match goal with
  | |- context [sleep ?w ?d ?s] =>
      lazymatch s with
      | context [sleep _ _ _] => fail
      | _ =>
          let E := fresh "E" in
          let Hfl := fresh "Hfl" in
          let Hr := fresh "Hr" in
          destruct (sleep_after w d s) as (? & ? & ? & E & Hfl & Hr);
          rewrite E; clear E; norm in Hfl; norm in Hr; norm
      end
  end.

Lemma transition_to_lane_after w a b reason s :
  let c := ctl s in
  let y := Z.max 0 (yellow_duration c) in
  let d := Z.max 0 (transition_delay c) in
  let t1 := <[a := YELLOW]> (lane_states c) in
  let t2 := <[a := RED]> t1 in
  let t3 := <[b := GREEN]> t2 in
  (transition_to_lane w a b reason s).1 = Returned tt
  /\ after w (exec (transition_to_lane w a b reason) s)
       (set_current_lane b (set_lane_states t3 c))
       (clock s + y + d) (reads s)
       ({| at_time := clock s + y + d; on_lane := b; to_state := GREEN; table := t3 |}
        :: {| at_time := clock s + y; on_lane := a; to_state := RED; table := t2 |}
        :: {| at_time := clock s; on_lane := a; to_state := YELLOW; table := t1 |}
        :: signals s)
       (db s).
Proof.
  destruct s as [[ls cl md yd td rn fl cc ec tw] ck rd sg dl out].
  run_monad. repeat step_sleep.
  split; [reflexivity|].
  eexists _, _, _. split; [reflexivity|]. norm. split.
  - intros Hm. rewrite Hfl0, Hfl by exact Hm. reflexivity.
  - intros Hn. rewrite Hr0, Hr by exact Hn. reflexivity.
Qed.

(** The whole effect of one normal cycle whose sensor read succeeds. *)
Lemma handle_normal_cycle_after w s det :
  sensors w (clock s) (reads s) = inr det ->
  let c := ctl s in
  let lane := current_lane c in
  let cnt := (get_lane_data det lane).1.2 in
  let amb := (get_lane_data det lane).2 in
  let g := calculate_green_duration (sum_values cnt) in
  let y := Z.max 0 (yellow_duration c) in
  let d := Z.max 0 (transition_delay c) in
  let next_lane := lane `mod` 4 + 1 in
  let t1 := <[lane := YELLOW]> (lane_states c) in
  let t2 := <[lane := RED]> t1 in
  let t3 := <[next_lane := GREEN]> t2 in
  (handle_normal_cycle w s).1 = Returned tt
  /\ after w (exec (handle_normal_cycle w) s)
       {| lane_states := t3; current_lane := next_lane; mode := NORMAL;
          yellow_duration := yellow_duration c;
          transition_delay := transition_delay c;
          running := running c;
          force_emergency_lane := force_emergency_lane c;
          cycle_count := cycle_count c + 1;
          emergency_count :=
            if amb then emergency_count c + 1 else emergency_count c;
          total_wait_time_saved := total_wait_time_saved c + Z.max 0 (60 - g) |}
       (clock s + g + y + d) (S (reads s))
       ({| at_time := clock s + g + y + d; on_lane := next_lane;
           to_state := GREEN; table := t3 |}
        :: {| at_time := clock s + g + y; on_lane := lane; to_state := RED;
              table := t2 |}
        :: {| at_time := clock s + g; on_lane := lane; to_state := YELLOW;
              table := t1 |}
        :: signals s)
       (match db_fault w (clock s) with
        | Some _ => db s
        | None =>
            {| log_lane_id := lane; vehicle_counts := cnt;
               ambulance_detected := amb; green_duration := g;
               signal_mode := if amb then EMERGENCY else mode c |} :: db s
        end).
Proof.
  intros Hs.
  destruct s as [[ls cl md yd td rn fl cc ec tw] ck rd sg dl out].
  cbn in Hs. unfold handle_normal_cycle. run_monad. rewrite Hs. norm.
  destruct (get_lane_data det cl) as [[f cnt] amb]. norm.
  pose proof (calculate_green_duration_range (sum_values cnt)) as Hg.
  destruct amb; norm; destruct (db_fault w ck); norm; repeat step_sleep;
    rewrite (Z.max_r 0 (calculate_green_duration (sum_values cnt))) by lia;
    (split; [reflexivity|]); unfold after; flatten;
    (eexists _, _, _; split; [reflexivity|]);
    (split; [intros Hm; rewrite Hfl1, Hfl0, Hfl; auto
            |intros Hn; rewrite Hr1, Hr0, Hr; auto]).
Qed.

(** A normal cycle whose sensor read raises changes nothing but the read
    counter. *)
Lemma handle_normal_cycle_raises w s e :
  sensors w (clock s) (reads s) = inl e ->
  handle_normal_cycle w s =
    (Raised e,
     {| ctl := ctl s; clock := clock s; reads := S (reads s);
        signals := signals s; db := db s; stdout := stdout s |}).
Proof.
  intros Hs. unfold handle_normal_cycle. run_monad. rewrite Hs. reflexivity.
Qed.

(** The emergency handler when the emergency lane is the active lane: a
    console line and nothing else. *)
Lemma handle_emergency_override_same w s :
  handle_emergency_override w (current_lane (ctl s)) s =
    (Returned tt, say (MsgEmergencyContinue (current_lane (ctl s))) s).
Proof.
  unfold handle_emergency_override. run_monad.
  destruct (decide (current_lane (ctl s) = current_lane (ctl s))); [reflexivity|].
  congruence.
Qed.

(** The whole effect of the emergency handler when the emergency lane is
    another lane and the sensor read after the transition succeeds. *)
Lemma handle_emergency_override_after w e_lane s det :
  let c := ctl s in
  let cur := current_lane c in
  let y := Z.max 0 (yellow_duration c) in
  let d := Z.max 0 (transition_delay c) in
  let t1 := <[cur := YELLOW]> (lane_states c) in
  let t2 := <[cur := RED]> t1 in
  let t3 := <[e_lane := GREEN]> t2 in
  cur <> e_lane ->
  sensors w (clock s + y + d) (reads s) = inr det ->
  (handle_emergency_override w e_lane s).1 = Returned tt
  /\ after w (exec (handle_emergency_override w e_lane) s)
       {| lane_states := t3; current_lane := e_lane; mode := mode c;
          yellow_duration := yellow_duration c;
          transition_delay := transition_delay c;
          running := running c;
          force_emergency_lane := force_emergency_lane c;
          cycle_count := cycle_count c + 1;
          emergency_count := emergency_count c + 1;
          total_wait_time_saved := total_wait_time_saved c |}
       (clock s + y + d + 45) (S (reads s))
       ({| at_time := clock s + y + d; on_lane := e_lane; to_state := GREEN;
           table := t3 |}
        :: {| at_time := clock s + y; on_lane := cur; to_state := RED;
              table := t2 |}
        :: {| at_time := clock s; on_lane := cur; to_state := YELLOW;
              table := t1 |}
        :: signals s)
       (match db_fault w (clock s + y + d) with
        | Some _ => db s
        | None =>
            {| log_lane_id := e_lane;
               vehicle_counts := (get_lane_data det e_lane).1.2;
               ambulance_detected := true; green_duration := 45;
               signal_mode := EMERGENCY |} :: db s
        end).
Proof.
  destruct s as [[ls cl md yd td rn fl cc ec tw] ck rd sg dl out].
  norm. intros Hne Hs.
  unfold handle_emergency_override. run_monad.
  destruct (decide (cl = e_lane)) as [|_]; [contradiction|].
  norm. repeat step_sleep. rewrite Hs. norm.
  destruct (get_lane_data det e_lane) as [[f cnt] amb]. norm.
  destruct (db_fault w (ck + Z.max 0 yd + Z.max 0 td)); norm; repeat step_sleep;
    (split; [reflexivity|]); unfold after; flatten;
    (eexists _, _, _; split; [reflexivity|]);
    (split; [intros Hm; rewrite Hfl1, Hfl0, Hfl; auto
            |intros Hn; rewrite Hr1, Hr0, Hr; auto]).
Qed.

(** The emergency handler when the sensor read after the transition raises:
    the transition has been made and counted as an emergency, nothing is
    logged, the emergency green is not waited for and the cycle is not
    counted. *)
Lemma handle_emergency_override_raises w e_lane s e :
  let c := ctl s in
  let cur := current_lane c in
  let y := Z.max 0 (yellow_duration c) in
  let d := Z.max 0 (transition_delay c) in
  let t1 := <[cur := YELLOW]> (lane_states c) in
  let t2 := <[cur := RED]> t1 in
  let t3 := <[e_lane := GREEN]> t2 in
  cur <> e_lane ->
  sensors w (clock s + y + d) (reads s) = inl e ->
  (handle_emergency_override w e_lane s).1 = Raised e
  /\ after w (exec (handle_emergency_override w e_lane) s)
       {| lane_states := t3; current_lane := e_lane; mode := mode c;
          yellow_duration := yellow_duration c;
          transition_delay := transition_delay c;
          running := running c;
          force_emergency_lane := force_emergency_lane c;
          cycle_count := cycle_count c;
          emergency_count := emergency_count c + 1;
          total_wait_time_saved := total_wait_time_saved c |}
       (clock s + y + d) (S (reads s))
       ({| at_time := clock s + y + d; on_lane := e_lane; to_state := GREEN;
           table := t3 |}
        :: {| at_time := clock s + y; on_lane := cur; to_state := RED;
              table := t2 |}
        :: {| at_time := clock s; on_lane := cur; to_state := YELLOW;
              table := t1 |}
        :: signals s)
       (db s).
Proof.
  destruct s as [[ls cl md yd td rn fl cc ec tw] ck rd sg dl out].
  norm. intros Hne Hs.
  unfold handle_emergency_override. run_monad.
  destruct (decide (cl = e_lane)) as [|_]; [contradiction|].
  norm. repeat step_sleep. rewrite Hs. norm.
  split; [reflexivity|]. unfold after. flatten.
  eexists _, _, _. split; [reflexivity|].
  split; [intros Hm; rewrite Hfl0, Hfl; auto | intros Hn; rewrite Hr0, Hr; auto].
Qed.

(** [check_emergency_conditions] with a pending override that counts as
    true. *)
Lemma check_emergency_conditions_forced w s l :
  force_emergency_lane (ctl s) = Some l -> l <> 0 ->
  check_emergency_conditions w s =
    (Returned (Some l), upd_ctl (set_force_emergency_lane None) s).
Proof.
  intros Hf Hl. unfold check_emergency_conditions. run_monad.
  rewrite Hf. cbn. destruct (Z.eqb_spec l 0); [contradiction|]. reflexivity.
Qed.

(** [check_emergency_conditions] without such an override. *)
Lemma check_emergency_conditions_scan w s :
  truthy (force_emergency_lane (ctl s)) = false ->
  check_emergency_conditions w s =
    (match sensors w (clock s) (reads s) with
     | inl e => Raised e
     | inr det => Returned (first_ambulance (get_all_lane_data det))
     end,
     {| ctl := ctl s; clock := clock s; reads := S (reads s);
        signals := signals s; db := db s; stdout := stdout s |}).
Proof.
  intros Hf. unfold check_emergency_conditions. run_monad.
  rewrite Hf. destruct (sensors w (clock s) (reads s)); reflexivity.
Qed.

(** ** One iteration of the loop *)

Lemma run_iteration_unfold w s :
  run_iteration w s =
    match check_emergency_conditions w s with
    | (Raised e, s1) => sleep w 5 (say (MsgError e) s1)
    | (Returned el, s1) =>
        if truthy el then
          recover w (handle_emergency_override w (default 0 el)
                       (upd_ctl (set_mode EMERGENCY) s1))
        else
          recover w (handle_normal_cycle w (upd_ctl (set_mode NORMAL) s1))
    end.
Proof.
  unfold run_iteration, run_body, run_try, exec, try_except.
  unfold mbind at 1. unfold M_bind at 1.
  destruct (check_emergency_conditions w s) as [[el|e] s1]; [|reflexivity].
  destruct (truthy el).
  - unfold mbind at 1. unfold M_bind at 1. unfold assign at 1. unfold act at 1.
    unfold recover.
    destruct (handle_emergency_override w (default 0 el)
                (upd_ctl (set_mode EMERGENCY) s1)) as [[[]|e] s2]; reflexivity.
  - unfold mbind at 1. unfold M_bind at 1. unfold assign at 1. unfold act at 1.
    unfold recover.
    destruct (handle_normal_cycle w (upd_ctl (set_mode NORMAL) s1))
      as [[[]|e] s2]; reflexivity.
Qed.

(** [check_emergency_conditions] never touches the signals, the counters or
    the clock. *)
Lemma check_emergency_conditions_frame w s :
  let s1 := (check_emergency_conditions w s).2 in
  lane_states (ctl s1) = lane_states (ctl s)
  /\ current_lane (ctl s1) = current_lane (ctl s)
  /\ signals s1 = signals s
  /\ running (ctl s1) = running (ctl s)
  /\ total_wait_time_saved (ctl s1) = total_wait_time_saved (ctl s)
  /\ cycle_count (ctl s1) = cycle_count (ctl s)
  /\ clock s1 = clock s
  /\ db s1 = db s.
Proof.
  unfold check_emergency_conditions. run_monad.
  destruct (truthy (force_emergency_lane (ctl s))); norm.
  - repeat split.
  - destruct (sensors w (clock s) (reads s)); norm; repeat split.
Qed.

(** An [after] fact read field by field. *)
Lemma after_fields w s' c t rd sg d :
  after w s' c t rd sg d ->
  lane_states (ctl s') = lane_states c
  /\ current_lane (ctl s') = current_lane c
  /\ mode (ctl s') = mode c
  /\ yellow_duration (ctl s') = yellow_duration c
  /\ transition_delay (ctl s') = transition_delay c
  /\ cycle_count (ctl s') = cycle_count c
  /\ emergency_count (ctl s') = emergency_count c
  /\ total_wait_time_saved (ctl s') = total_wait_time_saved c
  /\ clock s' = t /\ reads s' = rd /\ signals s' = sg /\ db s' = d
  /\ ((forall t', manual w t' = []) ->
      force_emergency_lane (ctl s') = force_emergency_lane c)
  /\ ((forall t', halt w t' = false) -> running (ctl s') = running c).
Proof.
  intros (fl & r & out & -> & Hfl & Hr). cbn. repeat split; auto.
Qed.

Lemma after_trans w s1 s2 c t rd sg d t2 rd2 sg2 d2 :
  after w s1 c t rd sg d ->
  after w s2 (ctl s1) t2 rd2 sg2 d2 ->
  after w s2 c t2 rd2 sg2 d2.
Proof.
  intros (fl & r & out & -> & Hfl & Hr) (fl' & r' & out' & -> & Hfl' & Hr').
  cbn in *. exists fl', r', out'. split; [|split].
  - destruct c; reflexivity.
  - intros Hm. rewrite (Hfl' Hm). auto.
  - intros Hn. rewrite (Hr' Hn). auto.
Qed.

(** The [except] clause after a failed body: a console line and five
    seconds of sleep. *)
Lemma after_backoff w s1 e c t rd sg d :
  after w s1 c t rd sg d ->
  after w (sleep w 5 (say (MsgError e) s1)) c (t + 5) rd sg d.
Proof.
  intros H.
  pose proof (sleep_after w 5 (say (MsgError e) s1)) as Hs. cbn in Hs.
  destruct (after_fields _ _ _ _ _ _ _ H) as (_&_&_&_&_&_&_&_&<-&<-&<-&<-&_).
  eapply after_trans; [exact H | exact Hs].
Qed.

Lemma recover_returned w (r : Outcome unit * Machine) :
  r.1 = Returned tt -> recover w r = r.2.
Proof. destruct r as [[[]|e] s']; cbn; [reflexivity | discriminate]. Qed.

Lemma recover_raised w (r : Outcome unit * Machine) e :
  r.1 = Raised e -> recover w r = sleep w 5 (say (MsgError e) r.2).
Proof. destruct r as [[[]|e'] s']; cbn; [discriminate | congruence]. Qed.

(** Every path through one iteration of the loop of [run]. *)
Lemma run_iteration_cases w s :
  let r := check_emergency_conditions w s in
  let s1 := r.2 in
  let c1 := ctl s1 in
  let y := Z.max 0 (yellow_duration c1) in
  let d := Z.max 0 (transition_delay c1) in
  let cur := current_lane c1 in
  let s' := run_iteration w s in
  match r.1 with
  | Raised e => after w s' c1 (clock s1 + 5) (reads s1) (signals s1) (db s1)
  | Returned el =>
      if truthy el then
        let l := default 0 el in
        if decide (cur = l) then
          s' = say (MsgEmergencyContinue l) (upd_ctl (set_mode EMERGENCY) s1)
        else
          match sensors w (clock s1 + y + d) (reads s1) with
          | inr det =>
              after w s' (emergency_ctl (set_mode EMERGENCY c1) l true)
                (clock s1 + y + d + 45) (S (reads s1))
                (transition_writes (lane_states c1) cur l (clock s1) y d
                 ++ signals s1)
                (logged w (clock s1 + y + d)
                   {| log_lane_id := l;
                      vehicle_counts := (get_lane_data det l).1.2;
                      ambulance_detected := true; green_duration := 45;
                      signal_mode := EMERGENCY |} (db s1))
          | inl e =>
              after w s' (emergency_ctl (set_mode EMERGENCY c1) l false)
                (clock s1 + y + d + 5) (S (reads s1))
                (transition_writes (lane_states c1) cur l (clock s1) y d
                 ++ signals s1)
                (db s1)
          end
      else
        match sensors w (clock s1) (reads s1) with
        | inr det =>
            let cnt := (get_lane_data det cur).1.2 in
            let amb := (get_lane_data det cur).2 in
            let g := calculate_green_duration (sum_values cnt) in
            after w s' (normal_cycle_ctl (set_mode NORMAL c1) amb g)
              (clock s1 + g + y + d) (S (reads s1))
              (transition_writes (lane_states c1) cur (cur `mod` 4 + 1)
                 (clock s1 + g) y d ++ signals s1)
              (logged w (clock s1)
                 {| log_lane_id := cur; vehicle_counts := cnt;
                    ambulance_detected := amb; green_duration := g;
                    signal_mode := if amb then EMERGENCY else NORMAL |} (db s1))
        | inl e =>
            after w s' (set_mode NORMAL c1) (clock s1 + 5) (S (reads s1))
              (signals s1) (db s1)
        end
  end.
Proof.
  cbv zeta. rewrite run_iteration_unfold.
  destruct (check_emergency_conditions w s) as [[el|e] s1]; cbn [fst snd].
  2: { apply after_backoff, after_refl. }
  destruct (truthy el).
  - set (l := default 0 el). set (s1e := upd_ctl (set_mode EMERGENCY) s1).
    change (current_lane (ctl s1)) with (current_lane (ctl s1e)).
    destruct (decide (current_lane (ctl s1e) = l)) as [E|NE].
    + rewrite <- E, handle_emergency_override_same. reflexivity.
    + change (clock s1) with (clock s1e).
      change (reads s1) with (reads s1e).
      change (yellow_duration (ctl s1)) with (yellow_duration (ctl s1e)).
      change (transition_delay (ctl s1)) with (transition_delay (ctl s1e)).
      destruct (sensors w _ (reads s1e)) as [e|det] eqn:Hs.
      * destruct (handle_emergency_override_raises w l s1e e NE Hs) as [Hr Ha].
        rewrite (recover_raised _ _ _ Hr).
        apply after_backoff. exact Ha.
      * destruct (handle_emergency_override_after w l s1e det NE Hs) as [Hr Ha].
        rewrite (recover_returned _ _ Hr). exact Ha.
  - set (s1n := upd_ctl (set_mode NORMAL) s1).
    change (clock s1) with (clock s1n).
    change (reads s1) with (reads s1n).
    destruct (sensors w (clock s1n) (reads s1n)) as [e|det] eqn:Hs.
    + rewrite (handle_normal_cycle_raises w s1n e Hs). cbn [recover].
      apply after_backoff.
      exists (force_emergency_lane (ctl s1)), (running (ctl s1)), (stdout s1).
      destruct s1 as [[] ? ? ? ? ?]; cbn; auto.
    + destruct (handle_normal_cycle_after w s1n det Hs) as [Hr Ha].
      rewrite (recover_returned _ _ Hr). exact Ha.
Qed.

(** ** The signal invariant *)

Lemma only_lane_at_most_one tbl lane :
  only_lane tbl lane -> at_most_one_non_red tbl.
Proof.
  intros H l1 l2 st1 st2 H1 N1 H2 N2.
  rewrite (H l1 st1 H1 N1), (H l2 st2 H2 N2). reflexivity.
Qed.

(** The three tables a transition goes through keep the invariant, and the
    last one has the target lane as its only possibly non-RED lane. *)
Lemma transition_tables_ok (tbl : gmap Z SignalState) (a b : Z) :
  only_lane tbl a ->
  only_lane (<[a := YELLOW]> tbl) a
  /\ only_lane (<[a := RED]> (<[a := YELLOW]> tbl)) b
  /\ only_lane (<[b := GREEN]> (<[a := RED]> (<[a := YELLOW]> tbl))) b.
Proof.
  intros H.
  assert (H2 : forall c, only_lane (<[a := RED]> (<[a := YELLOW]> tbl)) c).
  { intros c l st Hl N. destruct (decide (a = l)) as [->|Hne].
    - rewrite lookup_insert_eq in Hl. congruence.
    - rewrite !lookup_insert_ne in Hl by done.
      specialize (H l st Hl N). congruence. }
  split; [|split].
  - intros l st Hl N. destruct (decide (a = l)) as [->|Hne]; [reflexivity|].
    rewrite lookup_insert_ne in Hl by done. exact (H l st Hl N).
  - apply H2.
  - intros l st Hl N. destruct (decide (b = l)) as [->|Hne]; [reflexivity|].
    rewrite lookup_insert_ne in Hl by done. exact (H2 b l st Hl N).
Qed.

Lemma signal_step_ok s s' : signals_ok s -> signal_step s s' -> signals_ok s'.
Proof.
  intros [Hc Hh] [E1 E2 E3 | b t y d E1 E2 E3]; unfold signals_ok.
  - rewrite E1, E2, E3. auto.
  - rewrite E1, E2, E3.
    destruct (transition_tables_ok _ _ b Hc) as (T1 & T2 & T3).
    split; [exact T3|].
    unfold transition_writes. cbn [app].
    repeat (apply Forall_cons; split); cbn [table];
      eauto using only_lane_at_most_one.
Qed.

(** One iteration leaves the signals alone or makes one transition away
    from the active lane. *)
Lemma run_iteration_signal_step w s : signal_step s (run_iteration w s).
Proof.
  pose proof (run_iteration_cases w s) as H. cbv zeta in H.
  destruct (check_emergency_conditions_frame w s)
    as (F1 & F2 & F3 & _).
  destruct (check_emergency_conditions w s) as [[el|e] s1]; cbn [fst snd] in *.
  2: { apply after_fields in H. destruct H as (A1&A2&_&_&_&_&_&_&_&_&A3&_).
       apply signal_step_none; congruence. }
  destruct (truthy el).
  - destruct (decide (current_lane (ctl s1) = default 0 el)).
    + rewrite H. apply signal_step_none; cbn; assumption.
    + destruct (sensors w _ (reads s1));
        apply after_fields in H;
        destruct H as (A1&A2&_&_&_&_&_&_&_&_&A3&_);
        cbn in A1, A2; rewrite F1, F2, F3 in *;
        eapply signal_step_switch; eassumption.
  - destruct (sensors w (clock s1) (reads s1));
      apply after_fields in H;
      destruct H as (A1&A2&_&_&_&_&_&_&_&_&A3&_);
      cbn -[Z.modulo] in A1, A2; rewrite F1, F2, F3 in *.
    + apply signal_step_none; assumption.
    + eapply signal_step_switch; eassumption.
Qed.

Lemma run_loop_signals_ok w fuel : forall s,
  signals_ok s -> signals_ok (run_loop w fuel s).2.
Proof.
  induction fuel as [|fuel IH]; intros s Hs; cbn [run_loop];
    destruct (running (ctl s)); cbn [snd]; try assumption.
  apply IH. eapply signal_step_ok; [exact Hs | apply run_iteration_signal_step].
Qed.

Lemma new_controller_all_red l st :
  lane_states new_controller !! l = Some st -> st = RED.
Proof.
  cbn [lane_states new_controller list_to_map foldr fst snd curry uncurry].
  intros H.
  repeat (apply lookup_insert_Some in H as [[_ <-]|[_ H]]; [reflexivity|]).
  rewrite lookup_empty in H. discriminate.
Qed.

Lemma run_init_signals_ok : signals_ok (exec run_init boot).
Proof.
  assert (H : only_lane (<[1 := GREEN]> (lane_states new_controller)) 1).
  { intros l st Hl N. destruct (decide (1 = l)) as [<-|Hne]; [reflexivity|].
    rewrite lookup_insert_ne in Hl by done.
    apply new_controller_all_red in Hl. contradiction. }
  split; [exact H|].
  repeat constructor. exact (only_lane_at_most_one _ _ H).
Qed.

(** C2.  Every vehicle count falls in exactly one of the three tiers, and
    the green duration is 60 s above 15 vehicles, 30 s from 5 to 15 and 15 s
    below 5; in particular 20, 10, 3 give 60, 30, 15 and the boundary counts
    15, 5, 4 give 30, 30, 15. *)
Theorem green_duration_tiers (v : Z) :
  ((15 < v /\ calculate_green_duration v = 60)
   \/ (5 <= v <= 15 /\ calculate_green_duration v = 30)
   \/ (v < 5 /\ calculate_green_duration v = 15))
  /\ calculate_green_duration 20 = 60
  /\ calculate_green_duration 10 = 30
  /\ calculate_green_duration 3 = 15
  /\ calculate_green_duration 15 = 30
  /\ calculate_green_duration 5 = 30
  /\ calculate_green_duration 4 = 15.
Proof.
  split; [apply calculate_green_duration_cases | repeat split].
Qed.

(** C3.  Whatever the other threads and the sensors do and however long the
    loop runs: the table [get_all_states] returns before [run], every table
    left by an assignment to the lane states, and the table it returns at
    the end all have at most one lane that is not RED. *)
Theorem at_most_one_lane_not_red (w : World) (fuel : nat) :
  let s := (run w fuel boot).2 in
  at_most_one_non_red (get_all_states (ctl boot))
  /\ Forall (fun x => at_most_one_non_red (table x)) (signals s)
  /\ at_most_one_non_red (get_all_states (ctl s)).
Proof.
  cbv zeta. unfold run.
  destruct (run_loop_signals_ok w fuel _ run_init_signals_ok) as [Hc Hh].
  split; [|split].
  - intros l1 l2 st1 st2 H1 N1. apply new_controller_all_red in H1. contradiction.
  - exact Hh.
  - exact (only_lane_at_most_one _ _ Hc).
Qed.

(** ** Normal cycling *)

Lemma dict_set_no_ambulance k v (d : list (Z * LaneInfo)) :
  ambulance v = false ->
  Forall (fun kv => ambulance kv.2 = false) d ->
  Forall (fun kv => ambulance kv.2 = false) (dict_set k v d).
Proof.
  intros Hv. induction 1 as [|[k' v'] d Hk Hd IH]; cbn.
  - repeat constructor. exact Hv.
  - destruct (decide (k' = k)); constructor; auto.
Qed.

Lemma first_ambulance_none (d : list (Z * LaneInfo)) :
  Forall (fun kv => ambulance kv.2 = false) d -> first_ambulance d = None.
Proof.
  induction 1 as [|[k v] d Hk Hd IH]; cbn; [reflexivity|].
  cbn in Hk. rewrite Hk. exact IH.
Qed.

Lemma get_all_lane_data_no_ambulance det :
  no_ambulance det ->
  Forall (fun kv => ambulance kv.2 = false) (get_all_lane_data det).
Proof.
  unfold no_ambulance, get_all_lane_data.
  generalize (@nil (Z * LaneInfo)) (Forall_nil_2 (fun kv : Z * LaneInfo => ambulance kv.2 = false)).
  induction (processors det) as [|p ps IH]; intros acc Hacc Hps; cbn.
  - exact Hacc.
  - apply Forall_cons in Hps as [Hp Hps].
    apply IH; [|exact Hps].
    apply dict_set_no_ambulance; [exact Hp | exact Hacc].
Qed.

Lemma get_lane_data_no_ambulance det lane :
  no_ambulance det -> (get_lane_data det lane).2 = false.
Proof.
  intros H. unfold get_lane_data.
  destruct (_ && _); [|reflexivity].
  destruct (processors det !! Z.to_nat (lane - 1)) as [p|] eqn:Hp; [|reflexivity].
  exact (proj1 (Forall_lookup _ _) H _ _ Hp).
Qed.

(** In a calm world with no override pending, an iteration is a completed
    normal cycle. *)
Lemma calm_iteration w s :
  calm w -> truthy (force_emergency_lane (ctl s)) = false ->
  let s' := run_iteration w s in
  current_lane (ctl s') = current_lane (ctl s) `mod` 4 + 1
  /\ force_emergency_lane (ctl s') = force_emergency_lane (ctl s)
  /\ cycle_count (ctl s') = cycle_count (ctl s) + 1.
Proof.
  intros [Hsens Hman] Hf. cbv zeta.
  pose proof (run_iteration_cases w s) as H. cbv zeta in H.
  rewrite (check_emergency_conditions_scan w s Hf) in H. cbn [fst snd] in H.
  destruct (Hsens (clock s) (reads s)) as (det & Hd & Hq).
  rewrite Hd in H.
  rewrite (first_ambulance_none _ (get_all_lane_data_no_ambulance _ Hq)) in H.
  cbn [truthy clock reads ctl signals db] in H.
  destruct (Hsens (clock s) (S (reads s))) as (det' & Hd' & Hq').
  rewrite Hd' in H.
  apply after_fields in H.
  destruct H as (_&A2&_&_&_&A3&_&_&_&_&_&_&A4&_).
  repeat split; [exact A2 | exact (A4 Hman) | exact A3].
Qed.

Lemma calm_iterations w k :
  calm w ->
  let s := Nat.iter k (run_iteration w) (exec run_init boot) in
  current_lane (ctl s) = Z.of_nat k `mod` 4 + 1
  /\ force_emergency_lane (ctl s) = None.
Proof.
  intros Hw. induction k as [|k IH]; [split; reflexivity|].
  cbv zeta in *. destruct IH as [IH1 IH2].
  change (Nat.iter (S k) (run_iteration w) (exec run_init boot))
    with (run_iteration w (Nat.iter k (run_iteration w) (exec run_init boot))).
  destruct (calm_iteration w _ Hw (f_equal truthy IH2)) as (C1 & C2 & _).
  split; [|rewrite C2; exact IH2].
  rewrite C1, IH1, Nat2Z.inj_succ.
  rewrite Z.add_mod_idemp_l by lia. f_equal.
Qed.

(** C4.  A normal cycle whose sensor read succeeds, started at second [t]
    with active lane [L] and green duration [g], always runs to its end: it
    turns [L] YELLOW at [t + g], RED three seconds later and lane
    [L mod 4 + 1] GREEN two more seconds later, counts one more cycle and
    leaves the mode NORMAL.  And in a world without emergencies the active
    lane at the start of iteration [i] of the loop is [i mod 4 + 1]: the
    sequence 1, 2, 3, 4, 1, 2, ... *)
Theorem normal_cycle_round_robin :
  (forall (w : World) (s : Machine) (det : MultiLaneDetectionSystem),
     yellow_duration (ctl s) = 3 ->
     transition_delay (ctl s) = 2 ->
     sensors w (clock s) (reads s) = inr det ->
     let L := current_lane (ctl s) in
     let g := calculate_green_duration
                (sum_values (get_lane_data det L).1.2) in
     let s' := exec (handle_normal_cycle w) s in
     (handle_normal_cycle w s).1 = Returned tt
     /\ signals s' =
          transition_writes (lane_states (ctl s)) L (L `mod` 4 + 1)
            (clock s + g) 3 2 ++ signals s
     /\ clock s' = clock s + g + 3 + 2
     /\ current_lane (ctl s') = L `mod` 4 + 1
     /\ lane_states (ctl s') !! (L `mod` 4 + 1) = Some GREEN
     /\ cycle_count (ctl s') = cycle_count (ctl s) + 1
     /\ mode (ctl s') = NORMAL)
  /\ (forall (w : World) (k : nat),
        calm w ->
        active_lanes w k (exec run_init boot) =
          map (fun i => Z.of_nat i `mod` 4 + 1) (seq 0 k)).
Proof.
  split.
  - intros w s det Hy Hd Hs. cbv zeta.
    destruct (handle_normal_cycle_after w s det Hs) as [Hr Ha].
    split; [exact Hr|].
    apply after_fields in Ha. rewrite Hy, Hd in Ha.
    destruct Ha as (A1&A2&A3&_&_&A4&_&_&A5&_&A6&_).
    repeat split; try assumption.
    rewrite A1. apply lookup_insert_eq.
  - intros w k Hw. unfold active_lanes. apply map_ext. intros i.
    exact (proj1 (calm_iterations w i Hw)).
Qed.

Lemma normal_cycle_round_robin_witness :
  (let s' := exec (handle_normal_cycle still_world) (exec run_init boot) in
   clock s' = 20 /\ current_lane (ctl s') = 2 /\ cycle_count (ctl s') = 1)
  /\ active_lanes still_world 6 (exec run_init boot) = [1; 2; 3; 4; 1; 2].
Proof.
  destruct normal_cycle_round_robin as [H1 H2].
  split.
  - destruct (H1 still_world (exec run_init boot) quiet_system)
      as (_ & _ & Hc & Hl & _ & Hn & _); [reflexivity ..|].
    cbv zeta. rewrite Hc, Hl, Hn. repeat split.
  - rewrite (H2 still_world 6%nat).
    + reflexivity.
    + split; [|reflexivity].
      intros t n. exists quiet_system. split; [reflexivity|].
      repeat constructor.
Defined.

(** ** Choosing the emergency lane *)

Lemma build_processors_ids paths : forall i,
  Forall (fun p => i <= lane_id p) (build_processors i paths)
  /\ StronglySorted Z.lt (map lane_id (build_processors i paths)).
Proof.
  induction paths as [|path rest IH]; intros i; cbn.
  - split; constructor.
  - destruct (4 <? i); [split; constructor|].
    destruct (IH (i + 1)) as [Hlow Hsort]. cbn. split.
    + constructor; [cbn; lia|].
      eapply Forall_impl; [exact Hlow|]. cbn. intros; lia.
    + constructor; [exact Hsort|].
      apply Forall_map. eapply Forall_impl; [exact Hlow|]. cbn. intros; lia.
Qed.

(** The constructor numbers the lanes in strictly ascending order. *)
Lemma new_detection_system_ascending paths :
  StronglySorted Z.lt (lane_ids (new_detection_system paths)).
Proof. apply build_processors_ids. Qed.

Lemma dict_set_fresh {V : Type} k (v : V) (d : list (Z * V)) :
  k ∉ map fst d -> dict_set k v d = d ++ [(k, v)].
Proof.
  induction d as [|[k' v'] d IH]; cbn; intros Hk; [reflexivity|].
  destruct (decide (k' = k)) as [->|Hne].
  - exfalso. apply Hk. left.
  - rewrite IH; [reflexivity|]. intros Hin. apply Hk. right. exact Hin.
Qed.

(** With distinct lane ids the dict has one entry per processor, in
    processor order. *)
Lemma get_all_lane_data_entries det :
  StronglySorted Z.lt (lane_ids det) ->
  get_all_lane_data det = map lane_entry (processors det).
Proof.
  unfold get_all_lane_data, lane_ids.
  change (map lane_entry (processors det))
    with ([] ++ map lane_entry (processors det)).
  assert (Hacc : forall k, k ∈ map fst (@nil (Z * LaneInfo)) ->
                           Forall (Z.lt k) (map lane_id (processors det))).
  { intros k Hk. cbn in Hk. inversion Hk. }
  revert Hacc. generalize (@nil (Z * LaneInfo)).
  induction (processors det) as [|p ps IH]; intros acc Hacc Hs; cbn.
  - rewrite app_nil_r. reflexivity.
  - rewrite dict_set_fresh.
    + rewrite IH.
      * rewrite <- app_assoc. reflexivity.
      * intros k Hk. rewrite map_app in Hk. apply elem_of_app in Hk as [Hk|Hk].
        -- specialize (Hacc k Hk). cbn in Hacc.
           apply Forall_cons in Hacc as [_ Hacc]. exact Hacc.
        -- cbn in Hk. apply list_elem_of_singleton in Hk as ->.
           cbn in Hs. apply StronglySorted_inv in Hs as [_ Hs]. exact Hs.
      * cbn in Hs. apply StronglySorted_inv in Hs as [Hs _]. exact Hs.
    + intros Hin. specialize (Hacc _ Hin). cbn in Hacc.
      apply Forall_cons in Hacc as [Hlt _]. lia.
Qed.

(** On ascending lane ids the first lane found with an ambulance is the
    lowest-numbered one, and nothing is found only when no lane has one. *)
Lemma first_ambulance_lowest ps :
  StronglySorted Z.lt (map lane_id ps) ->
  match first_ambulance (map lane_entry ps) with
  | Some l =>
      (exists p, p ∈ ps /\ lane_id p = l /\ is_ambulance p = true)
      /\ (forall p, p ∈ ps -> is_ambulance p = true -> l <= lane_id p)
  | None => forall p, p ∈ ps -> is_ambulance p = false
  end.
Proof.
  induction ps as [|p ps IH]; cbn; intros Hs.
  - intros p Hp. inversion Hp.
  - apply StronglySorted_inv in Hs as [Hs Hlt].
    destruct (is_ambulance p) eqn:Hp.
    + split.
      * exists p. split; [left | auto].
      * intros q Hq _. apply elem_of_cons in Hq as [->|Hq]; [lia|].
        assert (lane_id p < lane_id q); [|lia].
        apply (proj1 (Forall_forall _ _) Hlt).
        apply list_elem_of_fmap. exists q. auto.
    + specialize (IH Hs). destruct (first_ambulance (map lane_entry ps)) as [l|].
      * destruct IH as [(q & Hq & Hl & Ha) Hmin]. split.
        -- exists q. split; [right; exact Hq | auto].
        -- intros q' Hq' Ha'. apply elem_of_cons in Hq' as [->|Hq'];
             [congruence | auto].
      * intros q Hq. apply elem_of_cons in Hq as [->|Hq]; auto.
Qed.

(** C6.  A pending override (for a lane id that counts as true, that is,
    not 0) is returned whatever the sensors show, and the slot is emptied.
    Without one, on a detection system numbered by its constructor, the lane
    returned reports an ambulance and no lane reporting one has a lower
    number; and nothing is returned exactly when no lane reports one. *)
Theorem emergency_lane_selection :
  (forall (w : World) (s : Machine) (l : Z),
     force_emergency_lane (ctl s) = Some l -> l <> 0 ->
     (check_emergency_conditions w s).1 = Returned (Some l)
     /\ force_emergency_lane (ctl (check_emergency_conditions w s).2) = None)
  /\ (forall (w : World) (s : Machine) (det : MultiLaneDetectionSystem)
        (paths : list string),
        force_emergency_lane (ctl s) = None ->
        sensors w (clock s) (reads s) = inr det ->
        lane_ids det = lane_ids (new_detection_system paths) ->
        match (check_emergency_conditions w s).1 with
        | Returned (Some l) =>
            reports_ambulance det l
            /\ (forall l', reports_ambulance det l' -> l <= l')
        | Returned None => forall l', ~ reports_ambulance det l'
        | Raised _ => False
        end).
Proof.
  split.
  - intros w s l Hf Hl.
    rewrite (check_emergency_conditions_forced w s l Hf Hl). split; reflexivity.
  - intros w s det paths Hf Hs Hids.
    rewrite check_emergency_conditions_scan by (rewrite Hf; reflexivity).
    rewrite Hs. cbn [fst].
    assert (Hsort : StronglySorted Z.lt (lane_ids det)).
    { rewrite Hids. apply new_detection_system_ascending. }
    rewrite (get_all_lane_data_entries det Hsort).
    pose proof (first_ambulance_lowest (processors det) Hsort) as H.
    destruct (first_ambulance (map lane_entry (processors det))) as [l|].
    + destruct H as [Hex Hmin]. split; [exact Hex|].
      intros l' (q & Hq & <- & Ha). exact (Hmin q Hq Ha).
    + intros l' (q & Hq & _ & Ha). rewrite (H q Hq) in Ha. discriminate.
Qed.

Lemma emergency_lane_selection_witness :
  (check_emergency_conditions still_world
     (force_emergency 4 (exec run_init boot))).1 = Returned (Some 4)
  /\ (reports_ambulance two_ambulances 2
      /\ forall l', reports_ambulance two_ambulances l' -> 2 <= l').
Proof.
  destruct emergency_lane_selection as [H1 H2]. split.
  - apply (H1 still_world (force_emergency 4 (exec run_init boot)) 4);
      [reflexivity | lia].
  - exact (H2 {| sensors := fun _ _ => inr two_ambulances;
                 manual := fun _ => []; halt := fun _ => false;
                 db_fault := fun _ => None |}
              (exec run_init boot) two_ambulances
              ["lane1.mp4"; "lane2.mp4"; "lane3.mp4"; "lane4.mp4"]%string
              eq_refl eq_refl eq_refl).
Defined.

(** ** The manual override *)

(** An iteration that starts with a pending override empties the slot, and
    the slot stays empty when nobody calls [force_emergency] meanwhile. *)
Lemma run_iteration_consumes w s l :
  force_emergency_lane (ctl s) = Some l -> l <> 0 ->
  (forall t, manual w t = []) ->
  force_emergency_lane (ctl (run_iteration w s)) = None.
Proof.
  intros Hf Hl Hm.
  pose proof (run_iteration_cases w s) as H. cbv zeta in H.
  rewrite (check_emergency_conditions_forced w s l Hf Hl) in H.
  cbn [fst snd truthy default] in H.
  destruct (Z.eqb_spec l 0) as [|_]; [contradiction|]. cbn [negb] in H.
  destruct (decide _) as [_|_].
  - rewrite H. reflexivity.
  - destruct (sensors w _ _); apply after_fields in H;
      destruct H as (_&_&_&_&_&_&_&_&_&_&_&_&A&_); exact (A Hm).
Qed.

(** C5.  The slot holds one lane id: a second [force_emergency] replaces
    the first.  Reading a pending override (for a lane id that counts as
    true, that is, not 0) returns it and empties the slot at once.  And
    after two calls [force_emergency 3] one iteration of the loop leaves
    the slot empty, when no further call arrives meanwhile. *)
Theorem manual_override_once :
  (forall (l1 l2 : Z) (s : Machine),
     force_emergency_lane (ctl (force_emergency l2 (force_emergency l1 s)))
     = Some l2)
  /\ (forall (w : World) (s : Machine) (l : Z),
        force_emergency_lane (ctl s) = Some l -> l <> 0 ->
        (check_emergency_conditions w s).1 = Returned (Some l)
        /\ force_emergency_lane (ctl (check_emergency_conditions w s).2) = None)
  /\ (forall (w : World) (s : Machine),
        (forall t, manual w t = []) ->
        force_emergency_lane
          (ctl (run_iteration w (force_emergency 3 (force_emergency 3 s))))
        = None).
Proof.
  split; [|split].
  - reflexivity.
  - intros w s l Hf Hl.
    rewrite (check_emergency_conditions_forced w s l Hf Hl). split; reflexivity.
  - intros w s Hm.
    apply (run_iteration_consumes w _ 3); [reflexivity | lia | exact Hm].
Qed.

Lemma manual_override_once_witness :
  (check_emergency_conditions still_world
     (force_emergency 3 (force_emergency 3 (exec run_init boot)))).1
  = Returned (Some 3)
  /\ force_emergency_lane
       (ctl (run_iteration still_world
               (force_emergency 3 (force_emergency 3 (exec run_init boot)))))
     = None.
Proof.
  destruct manual_override_once as (_ & H2 & H3). split.
  - apply (H2 still_world
             (force_emergency 3 (force_emergency 3 (exec run_init boot))) 3);
      [reflexivity | lia].
  - apply (H3 still_world (exec run_init boot)). reflexivity.
Defined.

(** ** Emergency handling *)

(** C7.  With another lane [E] as emergency lane, the handler started at
    second [t] turns the active lane [L] YELLOW at [t], RED three seconds
    later and [E] GREEN two more seconds later, hands the logger a record
    for [E] with 45 s of green and mode EMERGENCY, sleeps 45 s, and counts
    one more cycle and one more emergency.  With the active lane itself as
    emergency lane it changes neither signals nor counters nor the clock,
    so a GREEN active lane stays GREEN. *)
Theorem emergency_override_effect :
  (forall (w : World) (s : Machine) (E : Z) (det : MultiLaneDetectionSystem),
     current_lane (ctl s) <> E ->
     yellow_duration (ctl s) = 3 ->
     transition_delay (ctl s) = 2 ->
     sensors w (clock s + 3 + 2) (reads s) = inr det ->
     db_fault w (clock s + 3 + 2) = None ->
     let L := current_lane (ctl s) in
     let s' := exec (handle_emergency_override w E) s in
     (handle_emergency_override w E s).1 = Returned tt
     /\ signals s' =
          transition_writes (lane_states (ctl s)) L E (clock s) 3 2 ++ signals s
     /\ lane_states (ctl s') !! E = Some GREEN
     /\ current_lane (ctl s') = E
     /\ clock s' = clock s + 3 + 2 + 45
     /\ db s' =
          {| log_lane_id := E; vehicle_counts := (get_lane_data det E).1.2;
             ambulance_detected := true; green_duration := 45;
             signal_mode := EMERGENCY |} :: db s
     /\ cycle_count (ctl s') = cycle_count (ctl s) + 1
     /\ emergency_count (ctl s') = emergency_count (ctl s) + 1)
  /\ (forall (w : World) (s : Machine),
        let L := current_lane (ctl s) in
        let s' := exec (handle_emergency_override w L) s in
        (handle_emergency_override w L s).1 = Returned tt
        /\ signals s' = signals s
        /\ lane_states (ctl s') = lane_states (ctl s)
        /\ current_lane (ctl s') = L
        /\ clock s' = clock s
        /\ db s' = db s
        /\ cycle_count (ctl s') = cycle_count (ctl s)
        /\ emergency_count (ctl s') = emergency_count (ctl s)
        /\ (lane_states (ctl s) !! L = Some GREEN ->
            lane_states (ctl s') !! L = Some GREEN)).
Proof.
  split.
  - intros w s E det Hne Hy Hd Hs Hdb. cbv zeta.
    pose proof (handle_emergency_override_after w E s det) as H. cbv zeta in H.
    rewrite Hy, Hd in H. change (Z.max 0 3) with 3 in H.
    change (Z.max 0 2) with 2 in H. rewrite Hdb in H.
    destruct (H Hne Hs) as [Hr Ha]. split; [exact Hr|].
    apply after_fields in Ha.
    destruct Ha as (A1&A2&_&_&_&A3&A4&_&A5&_&A6&A7&_).
    repeat split; try assumption.
    rewrite A1. apply lookup_insert_eq.
  - intros w s. cbv zeta. unfold exec.
    rewrite handle_emergency_override_same. cbn. repeat split. auto.
Qed.

Lemma emergency_override_effect_witness :
  let s' := exec (handle_emergency_override still_world 3) (exec run_init boot) in
  current_lane (ctl s') = 3 /\ clock s' = 50
  /\ cycle_count (ctl s') = 1 /\ emergency_count (ctl s') = 1.
Proof.
  destruct emergency_override_effect as [H _].
  destruct (H still_world (exec run_init boot) 3 quiet_system)
    as (_ & _ & _ & Hl & Hc & _ & Hn & He);
    [intros Hx; vm_compute in Hx; discriminate | reflexivity ..|].
  cbv zeta. rewrite Hl, Hc, Hn, He. repeat split.
Defined.

(** C10.  The emergency handler never changes [total_wait_time_saved],
    whichever lane it is called for and however it ends; and an iteration
    of the loop that takes the emergency branch leaves it unchanged too. *)
Theorem emergency_keeps_wait_time_saved :
  (forall (w : World) (E : Z) (s : Machine),
     total_wait_time_saved (ctl (exec (handle_emergency_override w E) s))
     = total_wait_time_saved (ctl s))
  /\ (forall (w : World) (s : Machine) (el : option Z),
        (check_emergency_conditions w s).1 = Returned el ->
        truthy el = true ->
        total_wait_time_saved (ctl (run_iteration w s))
        = total_wait_time_saved (ctl s)).
Proof.
  split.
  - intros w E s.
    destruct (decide (current_lane (ctl s) = E)) as [<-|Hne].
    + unfold exec. rewrite handle_emergency_override_same. reflexivity.
    + destruct (sensors w
                  (clock s + Z.max 0 (yellow_duration (ctl s))
                   + Z.max 0 (transition_delay (ctl s))) (reads s))
        as [e|det] eqn:Hs.
      * destruct (handle_emergency_override_raises w E s e Hne Hs) as [_ Ha].
        apply after_fields in Ha.
        destruct Ha as (_&_&_&_&_&_&_&A&_). exact A.
      * destruct (handle_emergency_override_after w E s det Hne Hs) as [_ Ha].
        apply after_fields in Ha.
        destruct Ha as (_&_&_&_&_&_&_&A&_). exact A.
  - intros w s el Hc Ht.
    pose proof (run_iteration_cases w s) as H. cbv zeta in H.
    destruct (check_emergency_conditions_frame w s)
      as (_&_&_&_&F&_).
    rewrite Hc, Ht in H. rewrite <- F.
    destruct (decide _) as [_|_].
    + rewrite H. reflexivity.
    + destruct (sensors w _ _); apply after_fields in H;
        destruct H as (_&_&_&_&_&_&_&A&_); exact A.
Qed.

Lemma emergency_keeps_wait_time_saved_witness :
  total_wait_time_saved
    (ctl (run_iteration still_world (force_emergency 3 (exec run_init boot))))
  = 0.
Proof.
  destruct emergency_keeps_wait_time_saved as [_ H].
  rewrite (H still_world (force_emergency 3 (exec run_init boot)) (Some 3));
    reflexivity.
Defined.

(** ** Statistics *)

Lemma normal_cycles_statistics w C :
  (forall t n, exists det, sensors w t n = inr det) ->
  (forall t, db_fault w t = None) ->
  let s := Nat.iter C (exec (handle_normal_cycle w)) (exec run_init boot) in
  cycle_count (ctl s) = Z.of_nat C
  /\ length (db s) = C
  /\ total_wait_time_saved (ctl s) = wait_saved_sum (map green_duration (db s)).
Proof.
  intros Hsens Hdb. induction C as [|C IH]; [repeat split|].
  cbv zeta in *. destruct IH as (I1 & I2 & I3).
  change (Nat.iter (S C) (exec (handle_normal_cycle w)) (exec run_init boot))
    with (exec (handle_normal_cycle w)
            (Nat.iter C (exec (handle_normal_cycle w)) (exec run_init boot))).
  set (s := Nat.iter C (exec (handle_normal_cycle w)) (exec run_init boot)) in *.
  destruct (Hsens (clock s) (reads s)) as [det Hd].
  destruct (handle_normal_cycle_after w s det Hd) as [_ Ha].
  rewrite Hdb in Ha. apply after_fields in Ha.
  destruct Ha as (_&_&_&_&_&A1&_&A2&_&_&_&A3&_).
  cbn [cycle_count total_wait_time_saved] in A1, A2.
  rewrite A1, A2, A3, I1, I3. unfold logged, wait_saved_sum.
  cbn [length map foldr green_duration].
  repeat split; lia.
Qed.

(** C8.  After [C] normal cycles (sensors and logger working) with logged
    green durations [d1 .. dC], the statistics give [C] cycles and a wait
    saved of the sum of [max 0 (60 - di)]; and the average reported is the
    wait saved divided by the cycles, 0 when there has been no cycle. *)
Theorem statistics_after_normal_cycles :
  (forall (w : World) (C : nat),
     (forall t n, exists det, sensors w t n = inr det) ->
     (forall t, db_fault w t = None) ->
     let s := Nat.iter C (exec (handle_normal_cycle w)) (exec run_init boot) in
     let durations := map green_duration (db s) in
     length durations = C
     /\ total_cycles (get_statistics (ctl s)) = Z.of_nat C
     /\ wait_time_saved (get_statistics (ctl s)) = wait_saved_sum durations)
  /\ (forall c : TrafficSignalController,
        0 < cycle_count c ->
        avg_wait_saved_per_cycle (get_statistics c) =
          (inject_Z (wait_time_saved (get_statistics c))
           / inject_Z (total_cycles (get_statistics c)))%Q)
  /\ (forall c : TrafficSignalController,
        cycle_count c = 0 ->
        avg_wait_saved_per_cycle (get_statistics c) = 0%Q).
Proof.
  split; [|split].
  - intros w C Hsens Hdb. cbv zeta.
    destruct (normal_cycles_statistics w C Hsens Hdb) as (H1 & H2 & H3).
    rewrite length_map. auto.
  - intros c Hc. cbn. destruct (Z.ltb_spec 0 (cycle_count c)); [reflexivity|lia].
  - intros c Hc. cbn. rewrite Hc. reflexivity.
Qed.

Lemma statistics_after_normal_cycles_witness :
  (let s := Nat.iter 3 (exec (handle_normal_cycle still_world))
              (exec run_init boot) in
   total_cycles (get_statistics (ctl s)) = 3
   /\ wait_time_saved (get_statistics (ctl s)) = 135)
  /\ avg_wait_saved_per_cycle
       (get_statistics
          (ctl (Nat.iter 3 (exec (handle_normal_cycle still_world))
                  (exec run_init boot)))) = (135 # 3)%Q
  /\ avg_wait_saved_per_cycle (get_statistics new_controller) = 0%Q.
Proof.
  destruct statistics_after_normal_cycles as (H1 & H2 & H3).
  split; [|split].
  - destruct (H1 still_world 3%nat) as (_ & Hc & Hw).
    + intros t n. exists quiet_system. reflexivity.
    + reflexivity.
    + cbv zeta. rewrite Hc, Hw. split; reflexivity.
  - rewrite H2; [reflexivity | vm_compute; reflexivity].
  - apply H3. reflexivity.
Defined.

(** ** Failures inside a cycle *)

Lemma force_calls_stdout ls : forall s m,
  m ∈ stdout s ->
  m ∈ stdout (foldl (fun acc lane => force_emergency lane acc) s ls).
Proof.
  induction ls as [|l ls IH]; intros s m Hm; cbn [foldl]; [exact Hm|].
  apply IH. cbn. right. exact Hm.
Qed.

Lemma tick_stdout w s m : m ∈ stdout s -> m ∈ stdout (tick w s).
Proof.
  intros Hm. unfold tick.
  assert (H : m ∈ stdout
                (foldl (fun acc lane => force_emergency lane acc)
                   {| ctl := ctl s; clock := clock s + 1; reads := reads s;
                      signals := signals s; db := db s; stdout := stdout s |}
                   (manual w (clock s + 1)))).
  { apply force_calls_stdout. exact Hm. }
  destruct (halt w (clock s + 1)); [cbn; right|]; exact H.
Qed.

(** Console lines are never lost during a sleep. *)
Lemma sleep_stdout w d s m : m ∈ stdout s -> m ∈ stdout (sleep w d s).
Proof.
  unfold sleep. generalize (Z.to_nat d). intros n. revert s.
  induction n as [|n IH]; intros s Hm; cbn [ticks]; [exact Hm|].
  apply IH, tick_stdout, Hm.
Qed.

(** The loop body never lets an exception escape. *)
Lemma run_body_returns w s : (run_body w s).1 = Returned tt.
Proof.
  unfold run_body, try_except.
  match goal with |- context [let (_, _) := ?b in _] => destruct b as [[[]|e] s'] end;
    reflexivity.
Qed.

(** When the try block raises, the iteration ends with the error line and
    five seconds of sleep from the state in which it was raised. *)
Lemma run_iteration_backoff w s e :
  (run_try w s).1 = Raised e ->
  run_iteration w s = sleep w 5 (say (MsgError e) (run_try w s).2).
Proof.
  unfold run_iteration, run_body, exec, try_except.
  destruct (run_try w s) as [[[]|e'] s2]; cbn [fst snd]; [discriminate|].
  intros [= ->]. reflexivity.
Qed.

(** Without a [stop] call an iteration leaves [running] as it is. *)
Lemma run_iteration_running w s :
  (forall t, halt w t = false) ->
  running (ctl (run_iteration w s)) = running (ctl s).
Proof.
  intros Hh.
  pose proof (run_iteration_cases w s) as H. cbv zeta in H.
  destruct (check_emergency_conditions_frame w s) as (_&_&_&F&_).
  rewrite <- F.
  destruct (check_emergency_conditions w s) as [[el|e] s1]; cbn [fst snd] in *.
  2: { apply after_fields in H.
       destruct H as (_&_&_&_&_&_&_&_&_&_&_&_&_&A). exact (A Hh). }
  destruct (truthy el).
  - destruct (decide _) as [_|_]; [rewrite H; reflexivity|].
    destruct (sensors w _ _); apply after_fields in H;
      destruct H as (_&_&_&_&_&_&_&_&_&_&_&_&_&A); exact (A Hh).
  - destruct (sensors w _ _); apply after_fields in H;
      destruct H as (_&_&_&_&_&_&_&_&_&_&_&_&_&A); exact (A Hh).
Qed.

Lemma run_loop_keeps_running w fuel : forall s,
  (forall t, halt w t = false) ->
  running (ctl s) = true ->
  (run_loop w fuel s).1 = StillRunning.
Proof.
  induction fuel as [|fuel IH]; intros s Hh Hr; cbn [run_loop]; rewrite Hr;
    [reflexivity|].
  apply IH; [exact Hh|]. rewrite run_iteration_running; assumption.
Qed.

Lemma build_processors_fresh paths : forall i,
  Forall (fun p => sum_values (latest_counts p) = 0 /\ is_ambulance p = false)
    (build_processors i paths).
Proof.
  induction paths as [|path rest IH]; intros i; cbn; [constructor|].
  destruct (4 <? i); constructor; [split; reflexivity | apply IH].
Qed.

(** C9.  A lane outside the processors of the detection system reads as no
    frame, no vehicles and no ambulance, as does every lane before its first
    frame has been processed, and a normal cycle for a lane without
    processor completes with the 15 s green.  An exception raised inside the try
    block of the loop does not escape: the iteration prints the error line,
    sleeps 5 s from where the exception was raised, and returns.  And the
    loop leaves only through [running] being false: as long as [stop] is
    not called it is still running after any number of iterations. *)
Theorem absent_data_and_failures :
  (forall (det : MultiLaneDetectionSystem) (lane : Z),
     lane < 1 \/ Z.of_nat (length (processors det)) < lane ->
     get_lane_data det lane = (None, [], false)
     /\ calculate_green_duration (sum_values (get_lane_data det lane).1.2) = 15)
  /\ (forall (video_paths : list string) (lane : Z),
        let data := get_lane_data (new_detection_system video_paths) lane in
        sum_values data.1.2 = 0 /\ data.2 = false)
  /\ (forall (w : World) (s : Machine) (det : MultiLaneDetectionSystem),
        sensors w (clock s) (reads s) = inr det ->
        current_lane (ctl s) < 1
        \/ Z.of_nat (length (processors det)) < current_lane (ctl s) ->
        let s' := exec (handle_normal_cycle w) s in
        (handle_normal_cycle w s).1 = Returned tt
        /\ (exists x, first_write_after s s' = Some x
                      /\ to_state x = YELLOW /\ at_time x = clock s + 15)
        /\ total_wait_time_saved (ctl s') = total_wait_time_saved (ctl s) + 45)
  /\ (forall (w : World) (s : Machine), (run_body w s).1 = Returned tt)
  /\ (forall (w : World) (s : Machine) (e : Exn),
        (run_try w s).1 = Raised e ->
        let s2 := (run_try w s).2 in
        run_iteration w s = sleep w 5 (say (MsgError e) s2)
        /\ MsgError e ∈ stdout (run_iteration w s)
        /\ clock (run_iteration w s) = clock s2 + 5)
  /\ (forall (w : World) (fuel : nat),
        (forall t, halt w t = false) ->
        (run w fuel boot).1 = StillRunning).
Proof.
  assert (Habsent : forall det lane,
            lane < 1 \/ Z.of_nat (length (processors det)) < lane ->
            get_lane_data det lane = (None, [], false)).
  { intros det lane Hl. unfold get_lane_data.
    destruct (Z.leb_spec 1 lane); [|reflexivity].
    destruct (Z.leb_spec lane (Z.of_nat (length (processors det))));
      [lia | reflexivity]. }
  split; [|split; [|split; [|split; [|split]]]].
  - intros det lane Hl. rewrite (Habsent det lane Hl). split; reflexivity.
  - intros paths lane. cbv zeta. unfold get_lane_data.
    destruct (_ && _); [|split; reflexivity].
    destruct (processors (new_detection_system paths) !! Z.to_nat (lane - 1))
      as [p|] eqn:Hp; [|split; reflexivity].
    exact (proj1 (Forall_lookup _ _) (build_processors_fresh paths 1) _ _ Hp).
  - intros w s det Hs Hl. cbv zeta.
    destruct (handle_normal_cycle_after w s det Hs) as [Hr Ha].
    rewrite (Habsent det _ Hl) in Ha. cbn [fst snd sum_values foldr] in Ha.
    change (calculate_green_duration 0) with 15 in Ha.
    split; [exact Hr|].
    apply after_fields in Ha.
    destruct Ha as (_&_&_&_&_&_&_&A1&_&_&A2&_).
    split; [|exact A1].
    unfold first_write_after. rewrite A2. cbn [length].
    replace (S (S (S (length (signals s)))) - length (signals s))%nat
      with 3%nat by lia.
    cbn. eauto.
  - apply run_body_returns.
  - intros w s e Hr. cbv zeta.
    pose proof (run_iteration_backoff w s e Hr) as E.
    split; [exact E|]. rewrite E. split.
    + apply sleep_stdout. left.
    + destruct (sleep_after w 5 (say (MsgError e) (run_try w s).2))
        as (?&?&?&->&_).
      reflexivity.
  - intros w fuel Hh. unfold run.
    apply run_loop_keeps_running; [exact Hh | reflexivity].
Qed.

Lemma absent_data_and_failures_witness :
  get_lane_data quiet_system 7 = (None, [], false)
  /\ (handle_normal_cycle still_world
        (upd_ctl (set_current_lane 7) (exec run_init boot))).1 = Returned tt
  /\ MsgError (Exception "camera offline")
       ∈ stdout (run_iteration blind_world (exec run_init boot))
  /\ (run still_world 5 boot).1 = StillRunning.
Proof.
  destruct absent_data_and_failures as (H1 & _ & H2 & _ & H4 & H5).
  split; [|split; [|split]].
  - apply (H1 quiet_system 7). right. vm_compute. reflexivity.
  - apply (H2 still_world (upd_ctl (set_current_lane 7) (exec run_init boot))
             quiet_system); [reflexivity | right; vm_compute; reflexivity].
  - destruct (H4 blind_world (exec run_init boot) (Exception "camera offline"))
      as (_ & Hin & _); [reflexivity | exact Hin].
  - apply (H5 still_world 5%nat). reflexivity.
Defined.

(** ** The green wait *)

Lemma force_calls_pending ls : forall s,
  (forall l, l ∈ ls -> l <> 0) ->
  truthy (force_emergency_lane (ctl s)) = true \/ ls <> [] ->
  truthy (force_emergency_lane
            (ctl (foldl (fun acc lane => force_emergency lane acc) s ls))) = true.
Proof.
  induction ls as [|l ls IH]; intros s Hv Hp; cbn [foldl].
  - destruct Hp as [Hp|Hp]; [exact Hp | contradiction].
  - apply IH.
    + intros l' Hl'. apply Hv. right. exact Hl'.
    + left. cbn. destruct (Z.eqb_spec l 0) as [E|_]; [|reflexivity].
      exfalso. apply (Hv l); [left | exact E].
Qed.

Lemma tick_pending w s :
  (forall t l, l ∈ manual w t -> l <> 0) ->
  truthy (force_emergency_lane (ctl s)) = true \/ manual w (clock s + 1) <> [] ->
  truthy (force_emergency_lane (ctl (tick w s))) = true.
Proof.
  intros Hv Hp. unfold tick.
  assert (H : truthy (force_emergency_lane (ctl
                (foldl (fun acc lane => force_emergency lane acc)
                   {| ctl := ctl s; clock := clock s + 1; reads := reads s;
                      signals := signals s; db := db s; stdout := stdout s |}
                   (manual w (clock s + 1))))) = true).
  { apply force_calls_pending; [apply Hv | exact Hp]. }
  destruct (halt w (clock s + 1)); exact H.
Qed.

Lemma tick_clock w s : clock (tick w s) = clock s + 1.
Proof.
  destruct (tick_after w s) as (?&?&?&->&_). reflexivity.
Qed.

Lemma ticks_pending w n : forall s,
  (forall t l, l ∈ manual w t -> l <> 0) ->
  truthy (force_emergency_lane (ctl s)) = true
  \/ (exists t, clock s < t <= clock s + Z.of_nat n /\ manual w t <> []) ->
  truthy (force_emergency_lane (ctl (ticks w n s))) = true.
Proof.
  induction n as [|n IH]; intros s Hv Hp; cbn [ticks].
  - destruct Hp as [Hp|(t & Ht & _)]; [exact Hp | lia].
  - apply IH; [exact Hv|].
    destruct Hp as [Hp|(t & Ht & Hm)].
    + left. apply tick_pending; auto.
    + destruct (decide (t = clock s + 1)) as [->|Hne].
      * left. apply tick_pending; auto.
      * right. exists t. rewrite tick_clock. split; [lia | exact Hm].
Qed.

(** A sleep never empties the override slot, and a call that arrives during
    it fills the slot (all calls being for lane ids other than 0). *)
Lemma sleep_pending w d s :
  (forall t l, l ∈ manual w t -> l <> 0) ->
  truthy (force_emergency_lane (ctl s)) = true
  \/ (exists t, clock s < t <= clock s + d /\ manual w t <> []) ->
  truthy (force_emergency_lane (ctl (sleep w d s))) = true.
Proof.
  intros Hv Hp. unfold sleep. apply ticks_pending; [exact Hv|].
  destruct Hp as [Hp|(t & Ht & Hm)]; [left; exact Hp|].
  right. exists t. split; [lia | exact Hm].
Qed.

(** An override that arrives during the green wait is still in its slot
    when the normal cycle ends. *)
Lemma handle_normal_cycle_pending w s det :
  sensors w (clock s) (reads s) = inr det ->
  (forall t l, l ∈ manual w t -> l <> 0) ->
  (exists t,
     clock s < t <= clock s + calculate_green_duration
                      (sum_values (get_lane_data det (current_lane (ctl s))).1.2)
     /\ manual w t <> []) ->
  truthy (force_emergency_lane (ctl (exec (handle_normal_cycle w) s))) = true.
Proof.
  intros Hs Hv Harr.
  destruct s as [[ls cl md yd td rn fl cc ec tw] ck rd sg dl out].
  cbn [clock reads ctl current_lane] in Hs, Harr.
  unfold handle_normal_cycle. run_monad. rewrite Hs. norm.
  destruct (get_lane_data det cl) as [[f cnt] amb]. norm. cbn [fst snd] in Harr.
  destruct amb; norm; destruct (db_fault w ck); norm;
    repeat (apply sleep_pending; [exact Hv | first [right; exact Harr | left]]).
Qed.

(** C1, as claimed, fails: with [force_emergency(3)] called during second 5
    of the first, 15 s long green of lane 1, nothing happens to the signals
    before second 15. *)
Lemma green_wait_not_preempted :
  ~ green_wait_preemptible rush_world (exec run_init boot).
Proof.
  intros H.
  destruct (H quiet_system eq_refl) as (x & Hx & Hlt).
  { exists 5. split; [vm_compute; split; reflexivity | left; discriminate]. }
  vm_compute in Hx. injection Hx as <-.
  vm_compute in Hlt. discriminate.
Qed.

(** C1, amended.  The green wait is a plain sleep: whatever the sensors
    show and whoever calls [force_emergency] meanwhile, a normal cycle whose
    sensor read succeeds holds the green for the whole green duration, then
    turns the active lane YELLOW and moves on to lane [L mod 4 + 1], without
    a second look at the sensors.  An override that arrives during the wait
    (for a lane id other than 0, as all lane ids are) is still in its slot
    when the cycle ends, and the check that opens the next iteration of the
    loop returns it.  In the run where [force_emergency(3)] comes during
    second 5, lane 1 stays GREEN until second 15, lane 2 gets its GREEN at
    second 20 with the override still pending, and the transition to lane 3
    starts then. *)
Theorem green_wait_runs_in_full :
  (forall (w : World) (s : Machine) (det : MultiLaneDetectionSystem),
     sensors w (clock s) (reads s) = inr det ->
     let L := current_lane (ctl s) in
     let g := calculate_green_duration
                (sum_values (get_lane_data det L).1.2) in
     let s' := exec (handle_normal_cycle w) s in
     (handle_normal_cycle w s).1 = Returned tt
     /\ (exists x, first_write_after s s' = Some x
                   /\ on_lane x = L /\ to_state x = YELLOW
                   /\ at_time x = clock s + g)
     /\ current_lane (ctl s') = L `mod` 4 + 1
     /\ reads s' = S (reads s))
  /\ (forall (w : World) (s : Machine) (det : MultiLaneDetectionSystem),
        sensors w (clock s) (reads s) = inr det ->
        (forall t l, l ∈ manual w t -> l <> 0) ->
        let L := current_lane (ctl s) in
        let g := calculate_green_duration
                   (sum_values (get_lane_data det L).1.2) in
        let s' := exec (handle_normal_cycle w) s in
        (exists t, clock s < t <= clock s + g /\ manual w t <> []) ->
        exists l,
          force_emergency_lane (ctl s') = Some l
          /\ (check_emergency_conditions w s').1 = Returned (Some l))
  /\ (let s1 := run_iteration rush_world (exec run_init boot) in
      let s2 := run_iteration rush_world s1 in
      force_emergency_lane (ctl s1) = Some 3
      /\ current_lane (ctl s1) = 2
      /\ clock s1 = 20
      /\ force_emergency_lane (ctl s2) = None
      /\ map (fun x => (at_time x, on_lane x, to_state x)) (signals s2) =
           [(25, 3, GREEN); (23, 2, RED); (20, 2, YELLOW);
            (20, 2, GREEN); (18, 1, RED); (15, 1, YELLOW); (0, 1, GREEN)]).
Proof.
  split; [|split].
  - intros w s det Hs. cbv zeta.
    destruct (handle_normal_cycle_after w s det Hs) as [Hr Ha].
    split; [exact Hr|].
    apply after_fields in Ha.
    destruct Ha as (_&A1&_&_&_&_&_&_&_&A2&A3&_).
    split; [|split; [exact A1 | exact A2]].
    unfold first_write_after. rewrite A3. cbn [length].
    replace (S (S (S (length (signals s)))) - length (signals s))%nat
      with 3%nat by lia.
    cbn. eauto.
  - intros w s det Hs Hv. cbv zeta. intros Harr.
    pose proof (handle_normal_cycle_pending w s det Hs Hv Harr) as Hp.
    destruct (force_emergency_lane (ctl (exec (handle_normal_cycle w) s)))
      as [l|] eqn:Hl; [|discriminate].
    exists l. split; [reflexivity|].
    cbn in Hp. destruct (Z.eqb_spec l 0) as [|Hne]; [discriminate|].
    rewrite (check_emergency_conditions_forced w _ l Hl Hne). reflexivity.
  - vm_compute. repeat split.
Qed.

Lemma green_wait_runs_in_full_witness :
  (exists x,
     first_write_after (exec run_init boot)
       (exec (handle_normal_cycle rush_world) (exec run_init boot)) = Some x
     /\ on_lane x = 1 /\ to_state x = YELLOW /\ at_time x = 15)
  /\ (exists l,
        force_emergency_lane
          (ctl (exec (handle_normal_cycle rush_world) (exec run_init boot)))
        = Some l
        /\ (check_emergency_conditions rush_world
              (exec (handle_normal_cycle rush_world) (exec run_init boot))).1
           = Returned (Some l)).
Proof.
  destruct green_wait_runs_in_full as (H1 & H2 & _). split.
  - destruct (H1 rush_world (exec run_init boot) quiet_system eq_refl)
      as (_ & (x & Hx & Hl & Hst & Ht) & _).
    exists x. repeat split; assumption.
  - apply (H2 rush_world (exec run_init boot) quiet_system eq_refl).
    + intros t l Hl. cbn in Hl. destruct (t =? 5).
      * apply list_elem_of_singleton in Hl as ->. lia.
      * inversion Hl.
    + exists 5. split; [vm_compute; split; [reflexivity | discriminate]|].
      discriminate.
Defined.

(** * Further properties *)

(** ** The detector *)

Lemma boxes_of_class_cons k c bs :
  boxes_of_class k (c :: bs)
  = (if decide (c = k) then 1 else 0) + boxes_of_class k bs.
Proof.
  unfold boxes_of_class. rewrite filter_cons.
  destruct (decide (c = k)); cbn [length]; lia.
Qed.

Lemma count_box_step m conf k a b c e amb :
  count_box (new_detector m conf)
    ([("car", a); ("bus", b); ("truck", c); ("motorcycle", e)]%string, amb) k
  = ([("car", a + (if decide (k = 2) then 1 else 0));
      ("bus", b + (if decide (k = 5) then 1 else 0));
      ("truck", c + (if decide (k = 7) then 1 else 0));
      ("motorcycle", e + (if decide (k = 3) then 1 else 0))]%string,
     if decide (names m !! k = Some "ambulance"%string) then true else amb).
Proof.
  unfold count_box. change (model (new_detector m conf)) with m.
  destruct (decide (names m !! k = Some "ambulance"%string)) as [Hk|Hk];
  (destruct (decide (k = 2)) as [->|N2];
    [|destruct (decide (k = 3)) as [->|N3];
      [|destruct (decide (k = 5)) as [->|N5];
        [|destruct (decide (k = 7)) as [->|N7]]]]).
  1-4, 6-9: vm_compute bool_decide; cbv iota; vm_compute default;
       cbn [counts_get counts_set]; repeat (case_decide; try congruence; try lia);
       rewrite ?Z.add_0_r; reflexivity.
  all: rewrite bool_decide_eq_false_2
         by (cbn; rewrite !elem_of_cons, elem_of_nil; tauto);
       rewrite !Z.add_0_r; reflexivity.
Qed.

(** The loop of [detect] keeps the four keys in place and adds each vehicle
    box to its class; the flag is raised by a box whose model name is
    "ambulance" and never lowered. *)
Lemma count_boxes m conf bs : forall a b c e amb,
  foldl (count_box (new_detector m conf))
    ([("car", a); ("bus", b); ("truck", c); ("motorcycle", e)]%string, amb) bs
  = ([("car", a + boxes_of_class 2 bs); ("bus", b + boxes_of_class 5 bs);
      ("truck", c + boxes_of_class 7 bs);
      ("motorcycle", e + boxes_of_class 3 bs)]%string,
     amb || bool_decide (Exists (fun k => names m !! k = Some "ambulance"%string) bs)).
Proof.
  induction bs as [|k bs IH]; intros a b c e amb.
  - cbn [foldl]. unfold boxes_of_class. cbn [filter list_filter length Z.of_nat].
    rewrite !Z.add_0_r.
    rewrite bool_decide_eq_false_2 by (intros H; inversion H).
    rewrite orb_false_r. reflexivity.
  - cbn [foldl]. rewrite count_box_step, IH, !boxes_of_class_cons, !Z.add_assoc.
    f_equal.
    destruct (decide (names m !! k = Some "ambulance"%string)) as [Hk|Hk].
    + rewrite (bool_decide_eq_true_2 (Exists _ (k :: bs))) by (left; exact Hk).
      rewrite orb_true_r. reflexivity.
    + f_equal. apply bool_decide_ext. rewrite Exists_cons. tauto.
Qed.

Lemma vehicle_boxes_total bs :
  boxes_of_class 2 bs + (boxes_of_class 5 bs
    + (boxes_of_class 7 bs + (boxes_of_class 3 bs + 0)))
  = Z.of_nat (length (filter (fun c => c ∈ [2; 3; 5; 7]) bs)).
Proof.
  induction bs as [|k bs IH]; [reflexivity|].
  rewrite !boxes_of_class_cons, filter_cons.
  destruct (decide (k ∈ [2; 3; 5; 7])) as [Hin|Hout].
  - cbn [length]. rewrite Nat2Z.inj_succ, <- IH.
    rewrite !elem_of_cons, elem_of_nil in Hin.
    destruct Hin as [->|[->|[->|[->|[]]]]];
      repeat (case_decide; try lia).
  - rewrite <- IH. rewrite !elem_of_cons, elem_of_nil in Hout.
    repeat (case_decide; try lia); exfalso; apply Hout; tauto.
Qed.

Lemma detect_fields m conf f :
  detect (new_detector m conf) (Some f)
  = (Some (plot (infer m conf f)),
     [("car", boxes_of_class 2 (boxes (infer m conf f)));
      ("bus", boxes_of_class 5 (boxes (infer m conf f)));
      ("truck", boxes_of_class 7 (boxes (infer m conf f)));
      ("motorcycle", boxes_of_class 3 (boxes (infer m conf f)))]%string,
     bool_decide (Exists (fun k => names m !! k = Some "ambulance"%string)
                    (boxes (infer m conf f)))).
Proof.
  unfold detect.
  change (model (new_detector m conf)) with m.
  change (confidence (new_detector m conf)) with conf.
  rewrite count_boxes. rewrite !Z.add_0_l. reflexivity.
Qed.

Lemma detect_total m conf f :
  sum_values (detect (new_detector m conf) (Some f)).1.2
  = Z.of_nat (length (filter (fun c => c ∈ [2; 3; 5; 7])
                        (boxes (infer m conf f)))).
Proof.
  rewrite detect_fields. cbn [fst snd sum_values foldr].
  apply vehicle_boxes_total.
Qed.

(** X1.  On a frame, [detect] returns the picture drawn by the model and a
    dict with exactly the keys car, bus, truck and motorcycle, in this
    order, each holding the number of boxes of its COCO class (2, 5, 7, 3);
    boxes of other classes are not counted, so the counts add up to the
    number of boxes whose class is 2, 3, 5 or 7. *)
Theorem detect_counts (m : YOLO) (conf : Q) (f : Frame) :
  let bs := boxes (infer m conf f) in
  let r := detect (new_detector m conf) (Some f) in
  r.1.1 = Some (plot (infer m conf f))
  /\ r.1.2 = [("car", boxes_of_class 2 bs); ("bus", boxes_of_class 5 bs);
              ("truck", boxes_of_class 7 bs);
              ("motorcycle", boxes_of_class 3 bs)]%string
  /\ sum_values r.1.2
     = Z.of_nat (length (filter (fun c => c ∈ [2; 3; 5; 7]) bs)).
Proof.
  cbv zeta. split; [|split; [|apply detect_total]];
    rewrite detect_fields; reflexivity.
Qed.

(** X2.  Without a frame [detect] returns no picture, an empty dict and no
    ambulance.  On a frame the ambulance flag is set exactly when some box
    has a class the model itself names "ambulance"; so with a model whose
    names have no such class the flag is never set. *)
Theorem detect_ambulance (m : YOLO) (conf : Q) :
  detect (new_detector m conf) None = (None, [], false)
  /\ (forall f,
        (detect (new_detector m conf) (Some f)).2 = true
        <-> exists k, k ∈ boxes (infer m conf f)
                      /\ names m !! k = Some "ambulance"%string)
  /\ ((forall k, names m !! k <> Some "ambulance"%string) ->
      forall frame, (detect (new_detector m conf) frame).2 = false).
Proof.
  assert (H : forall f,
            (detect (new_detector m conf) (Some f)).2
            = bool_decide (Exists (fun k => names m !! k = Some "ambulance"%string)
                             (boxes (infer m conf f)))).
  { intros f. rewrite detect_fields. reflexivity. }
  split; [reflexivity|split].
  - intros f. rewrite H, bool_decide_eq_true, Exists_exists. reflexivity.
  - intros Hno [f|]; [|reflexivity].
    rewrite H. apply bool_decide_eq_false_2. rewrite Exists_exists.
    intros (k & _ & Hk). exact (Hno k Hk).
Qed.

Lemma detect_ambulance_witness :
  (detect (new_detector coco_model (1 # 2)) (Some (Image 1))).2 = false.
Proof.
  destruct (detect_ambulance coco_model (1 # 2)) as (_ & _ & H).
  apply H. intros k Hk.
  cbn [names coco_model list_to_map foldr fst snd curry uncurry] in Hk.
  repeat (apply lookup_insert_Some in Hk as [[_ Hk]|[_ Hk]]; [discriminate|]).
  rewrite lookup_empty in Hk. discriminate.
Defined.

Lemma processor_run_data d resize p reads_made :
  lane_id (processor_run d resize p reads_made) = lane_id p
  /\ video_source (processor_run d resize p reads_made) = video_source p
  /\ get_data (processor_run d resize p reads_made) =
       match last (omap id reads_made) with
       | Some f => detect d (Some (resize f))
       | None => get_data p
       end.
Proof.
  unfold processor_run.
  induction reads_made as [|r rs IH] using rev_ind; [repeat split|].
  rewrite foldl_snoc, omap_app. destruct IH as (I1 & I2 & I3).
  destruct r as [f|]; cbn [processor_step omap list_omap id].
  - rewrite last_snoc.
    destruct (detect d (Some (resize f))) as [[af c] a].
    repeat split; assumption.
  - rewrite app_nil_r. repeat split; assumption.
Qed.

(** X3.  The processor loop never changes the lane id or the video source,
    and after any sequence of reads the data it publishes is the detection
    on the last frame read, resized; reads that hit the end of the video
    leave the data as it is, and before the first frame the initial data
    stays. *)
Theorem processor_run_latest (d : VehicleDetector) (resize : Frame -> Frame)
    (p : LaneVideoProcessor) (reads_made : list (option Frame)) :
  let p' := processor_run d resize p reads_made in
  lane_id p' = lane_id p
  /\ video_source p' = video_source p
  /\ get_data p' =
       match last (omap id reads_made) with
       | Some f => detect d (Some (resize f))
       | None => get_data p
       end.
Proof.
  exact (processor_run_data d resize p reads_made).
Qed.

(** ** The detection system *)

Lemma build_processors_shape paths : forall i,
  map lane_id (build_processors i paths)
  = map (fun k => i + Z.of_nat k)
      (seq 0 (Nat.min (length paths) (Z.to_nat (5 - i))))
  /\ map video_source (build_processors i paths)
     = take (Z.to_nat (5 - i)) paths.
Proof.
  induction paths as [|path rest IH]; intros i; cbn [build_processors].
  - rewrite take_nil. split; reflexivity.
  - destruct (Z.ltb_spec 4 i) as [Hi|Hi].
    + replace (Z.to_nat (5 - i)) with 0%nat by lia.
      rewrite Nat.min_0_r. split; reflexivity.
    + destruct (IH (i + 1)) as [I1 I2].
      replace (Z.to_nat (5 - i)) with (S (Z.to_nat (5 - (i + 1)))) by lia.
      cbn [length Nat.min take map seq]. rewrite I1, I2.
      rewrite <- seq_shift, map_map. split; [|reflexivity].
      f_equal; [cbn; lia|]. apply map_ext. intros k. lia.
Qed.

Lemma new_detection_system_shape video_paths :
  length (processors (new_detection_system video_paths))
  = Nat.min (length video_paths) 4
  /\ lane_ids (new_detection_system video_paths)
     = map (fun k => Z.of_nat k + 1) (seq 0 (Nat.min (length video_paths) 4))
  /\ map video_source (processors (new_detection_system video_paths))
     = take 4 video_paths.
Proof.
  unfold lane_ids, new_detection_system. cbn [processors].
  destruct (build_processors_shape video_paths 1) as [H1 H2].
  change (Z.to_nat (5 - 1)) with 4%nat in *.
  assert (Hids : map lane_id (build_processors 1 video_paths)
                 = map (fun k => Z.of_nat k + 1)
                     (seq 0 (Nat.min (length video_paths) 4))).
  { rewrite H1. apply map_ext. intros k. lia. }
  split; [|split; [exact Hids | exact H2]].
  rewrite <- (length_map lane_id), Hids, length_map, length_seq. reflexivity.
Qed.

(** X4.  The constructor makes one processor per video path, for the first
    four paths only: the lanes are numbered 1, 2, ... in the order of the
    paths, each processor has its own path, and a fifth and further paths
    are dropped. *)
Theorem constructor_caps_at_four (video_paths : list string) :
  let det := new_detection_system video_paths in
  length (processors det) = Nat.min (length video_paths) 4
  /\ lane_ids det
     = map (fun k => Z.of_nat k + 1) (seq 0 (Nat.min (length video_paths) 4))
  /\ map video_source (processors det) = take 4 video_paths.
Proof.
  exact (new_detection_system_shape video_paths).
Qed.

Lemma dict_get_entries ps : forall i l,
  map lane_id ps = map (fun k => i + Z.of_nat k) (seq 0 (length ps)) ->
  dict_get l (map lane_entry ps)
  = (if decide (i <= l)
     then (fun p => (lane_entry p).2) <$> ps !! Z.to_nat (l - i)
     else None).
Proof.
  induction ps as [|p ps IH]; intros i l Hids; cbn [map dict_get].
  - destruct (decide (i <= l)); reflexivity.
  - cbn [length seq map] in Hids. injection Hids as Hp Hrest.
    rewrite <- seq_shift, map_map in Hrest.
    assert (Hrest' : map lane_id ps
                     = map (fun k => (i + 1) + Z.of_nat k) (seq 0 (length ps))).
    { rewrite Hrest. apply map_ext. intros k. lia. }
    specialize (IH (i + 1) l Hrest').
    unfold lane_entry at 1. cbn [fst snd].
    destruct (decide (lane_id p = l)) as [E|NE].
    + destruct (decide (i <= l)) as [_|N]; [|lia].
      replace (Z.to_nat (l - i)) with 0%nat by lia. reflexivity.
    + rewrite IH.
      destruct (decide (i + 1 <= l)) as [H1|H1];
        destruct (decide (i <= l)) as [H2|H2]; try lia; try reflexivity.
      replace (Z.to_nat (l - i)) with (S (Z.to_nat (l - (i + 1)))) by lia.
      reflexivity.
Qed.

(** X5.  On a detection system numbered by its constructor the two queries
    agree on every lane id: when [get_all_lane_data] has an entry for the
    lane, [get_lane_data] returns the same frame, counts and flag and the
    entry's total is the sum of its counts; when it has none, the lane has
    no processor and [get_lane_data] returns no frame, no counts and no
    ambulance. *)
Theorem lane_queries_agree (det : MultiLaneDetectionSystem)
    (video_paths : list string) (l : Z) :
  lane_ids det = lane_ids (new_detection_system video_paths) ->
  match dict_get l (get_all_lane_data det) with
  | Some info =>
      get_lane_data det l = (frame info, counts info, ambulance info)
      /\ total info = sum_values (counts info)
      /\ 1 <= l <= Z.of_nat (length (processors det))
  | None =>
      get_lane_data det l = (None, [], false)
      /\ (l < 1 \/ Z.of_nat (length (processors det)) < l)
  end.
Proof.
  intros Hids.
  assert (Hsort : StronglySorted Z.lt (lane_ids det)).
  { rewrite Hids. apply new_detection_system_ascending. }
  assert (Hlen : length (processors det)
                 = Nat.min (length video_paths) 4).
  { destruct (new_detection_system_shape video_paths) as (H1 & _).
    rewrite <- H1. unfold lane_ids in Hids.
    rewrite <- (length_map lane_id), Hids, length_map. reflexivity. }
  assert (Hseq : map lane_id (processors det)
                 = map (fun k => 1 + Z.of_nat k)
                     (seq 0 (length (processors det)))).
  { destruct (new_detection_system_shape video_paths) as (_ & H2 & _). unfold lane_ids in Hids, H2. rewrite Hids, H2, Hlen.
    apply map_ext. intros k. lia. }
  rewrite (get_all_lane_data_entries det Hsort).
  rewrite (dict_get_entries _ 1 l Hseq).
  unfold get_lane_data.
  destruct (decide (1 <= l)) as [H1|H1].
  - destruct (processors det !! Z.to_nat (l - 1)) as [p|] eqn:Hp; cbn [fmap option_fmap option_map].
    + apply lookup_lt_Some in Hp.
      destruct (Z.leb_spec 1 l); [|lia].
      destruct (Z.leb_spec l (Z.of_nat (length (processors det)))); [|lia].
      cbn [andb]. repeat split; lia.
    + apply lookup_ge_None in Hp.
      destruct (Z.leb_spec 1 l); [|lia].
      destruct (Z.leb_spec l (Z.of_nat (length (processors det)))); [lia|].
      cbn [andb]. split; [reflexivity | right; lia].
  - destruct (Z.leb_spec 1 l); [lia|]. cbn [andb]. split; [reflexivity | left; lia].
Qed.

Lemma lane_queries_agree_witness :
  get_lane_data two_ambulances 3
  = (Some (Image 5), [("car", 6); ("bus", 1)]%string, true)
  /\ get_lane_data two_ambulances 5 = (None, [], false).
Proof.
  split.
  - pose proof (lane_queries_agree two_ambulances
                  ["lane1.mp4"; "lane2.mp4"; "lane3.mp4"; "lane4.mp4"]%string
                  3 eq_refl) as H.
    vm_compute in H. destruct H as (H & _). vm_compute. exact H.
  - pose proof (lane_queries_agree two_ambulances
                  ["lane1.mp4"; "lane2.mp4"; "lane3.mp4"; "lane4.mp4"]%string
                  5 eq_refl) as H.
    vm_compute in H. destruct H as (H & _). vm_compute. exact H.
Defined.

(** ** The loop of [run], iteration by iteration *)

Lemma check_emergency_conditions_counters w s :
  let s1 := (check_emergency_conditions w s).2 in
  emergency_count (ctl s1) = emergency_count (ctl s)
  /\ yellow_duration (ctl s1) = yellow_duration (ctl s)
  /\ transition_delay (ctl s1) = transition_delay (ctl s)
  /\ mode (ctl s1) = mode (ctl s).
Proof.
  unfold check_emergency_conditions. run_monad.
  destruct (truthy (force_emergency_lane (ctl s))); norm.
  - repeat split.
  - destruct (sensors w (clock s) (reads s)); norm; repeat split.
Qed.

(** Every iteration has one of the four effects. *)
Lemma run_iteration_effect w s : iteration_effect w s (run_iteration w s).
Proof.
  pose proof (run_iteration_cases w s) as H. cbv zeta in H.
  destruct (check_emergency_conditions_frame w s)
    as (_ & F2 & _ & _ & F5 & F6 & F7 & F8).
  destruct (check_emergency_conditions_counters w s) as (G1 & _).
  destruct (check_emergency_conditions w s) as [[el|e] s1]; cbn [fst snd] in *.
  2: { apply after_fields in H.
       destruct H as (_&_&_&_&_&A1&A2&A3&A4&_&_&A5&_).
       apply effect_none; try congruence. lia. }
  destruct (truthy el).
  - destruct (decide (current_lane (ctl s1) = default 0 el)).
    + rewrite H. apply effect_none; cbn; try assumption. lia.
    + destruct (sensors w _ (reads s1)) as [e|det] eqn:Hs;
        apply after_fields in H;
        destruct H as (_&_&_&_&_&A1&A2&A3&A4&_&_&A5&_);
        cbn [emergency_ctl cycle_count emergency_count total_wait_time_saved
             set_mode] in A1, A2, A3.
      * eapply effect_emergency_failed; [exact Hs | congruence ..|lia].
      * eapply effect_emergency; [congruence | congruence | congruence | | lia].
        rewrite A5, F8. reflexivity.
  - destruct (sensors w (clock s1) (reads s1)) as [e|det] eqn:Hs;
      apply after_fields in H;
      destruct H as (_&_&_&_&_&A1&A2&A3&A4&_&_&A5&_);
      cbn [normal_cycle_ctl cycle_count emergency_count total_wait_time_saved
           set_mode current_lane] in A1, A2, A3.
    + apply effect_none; try congruence. lia.
    + pose proof (calculate_green_duration_range
                    (sum_values (get_lane_data det (current_lane (ctl s1))).1.2)).
      eapply effect_normal with (amb := (get_lane_data det (current_lane (ctl s1))).2);
        [congruence | rewrite A2, G1; reflexivity | rewrite A3, F5; reflexivity
        | rewrite A5, F8, F2; reflexivity | lia].
Qed.

(** A property kept by every iteration and by the last console line holds
    when [run_loop] returns. *)
Lemma run_loop_invariant (I : Machine -> Prop) w :
  (forall s, I s -> I (run_iteration w s)) ->
  (forall s, I s -> I (say MsgStopped s)) ->
  forall fuel s, I s -> I (run_loop w fuel s).2.
Proof.
  intros Hstep Hsay. induction fuel as [|fuel IH]; intros s Hs; cbn [run_loop];
    destruct (running (ctl s)); cbn [snd]; auto.
Qed.

(** X6.  Whenever the loop of [run] is between two iterations, and when it
    has returned, the active lane is GREEN and every other lane id, known
    to the table or not, reads RED through [get_lane_state]. *)
Theorem active_lane_green_between_iterations (w : World) (fuel : nat) (l : Z) :
  let c := ctl (run w fuel boot).2 in
  get_lane_state c l = if decide (l = current_lane c) then GREEN else RED.
Proof.
  cbv zeta.
  assert (H : lane_states (ctl (run w fuel boot).2)
                !! current_lane (ctl (run w fuel boot).2) = Some GREEN
              /\ only_lane (lane_states (ctl (run w fuel boot).2))
                   (current_lane (ctl (run w fuel boot).2))).
  { unfold run.
    apply (run_loop_invariant
             (fun s => lane_states (ctl s) !! current_lane (ctl s) = Some GREEN
                       /\ only_lane (lane_states (ctl s)) (current_lane (ctl s)))).
    - intros s [Hg Ho].
      destruct (run_iteration_signal_step w s) as [E1 E2 E3 | b t y d E1 E2 E3].
      + rewrite E1, E2. auto.
      + rewrite E1, E2. split; [apply lookup_insert_eq|].
        apply transition_tables_ok, Ho.
    - intros s Hs. exact Hs.
    - split; [reflexivity | apply run_init_signals_ok]. }
  destruct H as [Hg Ho]. unfold get_lane_state.
  destruct (decide (l = current_lane (ctl (run w fuel boot).2))) as [->|Hne].
  - rewrite Hg. reflexivity.
  - destruct (lane_states (ctl (run w fuel boot).2) !! l) as [st|] eqn:Hl;
      [|reflexivity].
    cbn. destruct st; [reflexivity | |]; exfalso; apply Hne;
      apply (Ho l _ Hl); discriminate.
Qed.

Lemma iteration_bounds (w : World) (s : Machine) :
  let s' := run_iteration w s in
  cycle_count (ctl s) <= cycle_count (ctl s') <= cycle_count (ctl s) + 1
  /\ emergency_count (ctl s) <= emergency_count (ctl s')
     <= emergency_count (ctl s) + 1
  /\ total_wait_time_saved (ctl s) <= total_wait_time_saved (ctl s')
     <= total_wait_time_saved (ctl s) + 45
  /\ (total_wait_time_saved (ctl s') = total_wait_time_saved (ctl s)
      \/ cycle_count (ctl s') = cycle_count (ctl s) + 1)
  /\ clock s <= clock s'
  /\ (db s' = db s \/ exists r, db s' = r :: db s).
Proof.
  cbv zeta.
  destruct (run_iteration_effect w s)
    as [E1 E2 E3 E4 E5 | cnt amb t E1 E2 E3 E4 E5 | l cnt t E1 E2 E3 E4 E5
        | e t n _ E1 E2 E3 E4 E5];
    rewrite E1, E2, E3, E4.
  - repeat split; try lia; auto.
  - pose proof (calculate_green_duration_range (sum_values cnt)).
    unfold logged. destruct amb, (db_fault w t); repeat split; try lia; eauto.
  - unfold logged. destruct (db_fault w t); repeat split; try lia; eauto.
  - repeat split; try lia; auto.
Qed.

(** X7.  One iteration of the loop, whatever happens in it, counts at most
    one cycle and at most one emergency, adds at most 45 s to the wait time
    saved and only together with a counted cycle, never decreases a counter
    or the clock, and hands the logger at most one record. *)
Theorem iteration_counters_monotone (w : World) (s : Machine) :
  let s' := run_iteration w s in
  cycle_count (ctl s) <= cycle_count (ctl s') <= cycle_count (ctl s) + 1
  /\ emergency_count (ctl s) <= emergency_count (ctl s')
     <= emergency_count (ctl s) + 1
  /\ total_wait_time_saved (ctl s) <= total_wait_time_saved (ctl s')
     <= total_wait_time_saved (ctl s) + 45
  /\ (total_wait_time_saved (ctl s') = total_wait_time_saved (ctl s)
      \/ cycle_count (ctl s') = cycle_count (ctl s) + 1)
  /\ clock s <= clock s'
  /\ (db s' = db s \/ exists r, db s' = r :: db s).
Proof. exact (iteration_bounds w s). Qed.



(** X9.  Every record the controller hands to the logger during a run is
    either an emergency switch (45 s, mode EMERGENCY, ambulance flag set,
    also when the switch came from a manual override) or a normal cycle
    whose duration is the tiered duration of the counts in the same record
    and whose mode is EMERGENCY exactly when its ambulance flag is set. *)
Theorem logged_records_well_formed (w : World) (fuel : nat) :
  Forall well_formed_log (db (run w fuel boot).2).
Proof.
  unfold run.
  apply (run_loop_invariant (fun s => Forall well_formed_log (db s))).
  - intros s Hs.
    destruct (run_iteration_effect w s)
      as [_ _ _ E _ | cnt amb t _ _ _ E _ | l cnt t _ _ _ E _ | e t n _ _ _ _ E _];
      rewrite E; try exact Hs; unfold logged; destruct (db_fault w t);
      try exact Hs; constructor; try exact Hs.
    + right. split; reflexivity.
    + left. repeat split.
  - intros s Hs. exact Hs.
  - constructor.
Qed.

Lemma today_wait_time_saved_fold logs :
  today_wait_time_saved (get_today_stats logs)
  = foldr (fun l acc => Z.max 0 (60 - green_duration l) + acc) 0 logs.
Proof. destruct logs; reflexivity. Qed.

(** X10.  When no access to the detection system and no logger call fails,
    the statistics the database computes from the records of a run agree
    with the controller's own on the number of cycles and of emergency
    events; but the database also credits each emergency switch with the
    15 s its 45 s green is below 60, which the controller does not count
    as wait time saved. *)
Theorem database_statistics_agree (w : World) (fuel : nat) :
  (forall t n, exists det, sensors w t n = inr det) ->
  (forall t, db_fault w t = None) ->
  let s := (run w fuel boot).2 in
  let today := get_today_stats (db s) in
  today_total_cycles today = total_cycles (get_statistics (ctl s))
  /\ today_emergency_events today = emergency_events (get_statistics (ctl s))
  /\ today_wait_time_saved today
     = wait_time_saved (get_statistics (ctl s)) + 15 * emergency_switches (db s).
Proof.
  intros Hsens Hdb. cbv zeta. rewrite today_wait_time_saved_fold.
  cbn [get_today_stats get_statistics today_total_cycles today_emergency_events
       total_cycles emergency_events wait_time_saved].
  unfold run.
  apply (run_loop_invariant
           (fun s =>
              Z.of_nat (length (db s)) = cycle_count (ctl s)
              /\ foldr (fun l acc =>
                          if decide (signal_mode l = EMERGENCY) then 1 + acc else acc)
                   0 (db s) = emergency_count (ctl s)
              /\ foldr (fun l acc => Z.max 0 (60 - green_duration l) + acc) 0 (db s)
                 = total_wait_time_saved (ctl s) + 15 * emergency_switches (db s))).
  - intros s (I1 & I2 & I3).
    destruct (run_iteration_effect w s)
      as [E1 E2 E3 E4 _ | cnt amb t E1 E2 E3 E4 _ | l cnt t E1 E2 E3 E4 _
          | e t n Hs _ _ _ _ _].
    + rewrite E1, E2, E3, E4. auto.
    + rewrite E1, E2, E3, E4. unfold logged. rewrite Hdb.
      unfold emergency_switches in *. rewrite filter_cons.
      cbn [foldr length green_duration signal_mode].
      pose proof (calculate_green_duration_cases (sum_values cnt)) as Hg.
      destruct (decide (calculate_green_duration (sum_values cnt) = 45)) as [E|_];
        [lia|].
      destruct amb; cbn [decide]; repeat case_decide; try congruence;
        repeat split; lia.
    + rewrite E1, E2, E3, E4. unfold logged. rewrite Hdb.
      unfold emergency_switches in *. rewrite filter_cons.
      cbn [foldr length green_duration signal_mode].
      repeat case_decide; try congruence. cbn [length]. repeat split; lia.
    + destruct (Hsens t n) as [det Hd]. congruence.
  - intros s Hs. exact Hs.
  - repeat split.
Qed.

Lemma database_statistics_agree_witness :
  today_total_cycles (get_today_stats (db (run still_world 3 boot).2))
  = total_cycles (get_statistics (ctl (run still_world 3 boot).2)).
Proof.
  apply (database_statistics_agree still_world 3).
  - intros t n. exists quiet_system. reflexivity.
  - intros t. reflexivity.
Defined.

(** ** Stop requests *)








(** ** Emergencies in the loop *)

(** The lane found first is the given lane when that lane reports an
    ambulance and no lower-numbered lane does. *)
Lemma first_ambulance_is det paths l :
  lane_ids det = lane_ids (new_detection_system paths) ->
  reports_ambulance det l ->
  (forall l', reports_ambulance det l' -> l <= l') ->
  first_ambulance (get_all_lane_data det) = Some l /\ 1 <= l.
Proof.
  intros Hids Hl Hmin.
  assert (Hsort : StronglySorted Z.lt (lane_ids det)).
  { rewrite Hids. apply new_detection_system_ascending. }
  split.
  - rewrite (get_all_lane_data_entries det Hsort).
    pose proof (first_ambulance_lowest (processors det) Hsort) as H.
    destruct (first_ambulance (map lane_entry (processors det))) as [l0|].
    + destruct H as [(q & Hq & Hq1 & Hq2) Hlow]. f_equal.
      destruct Hl as (p & Hp & Hp1 & Hp2).
      specialize (Hlow p Hp Hp2).
      assert (l <= l0) by (apply Hmin; exists q; auto). lia.
    + destruct Hl as (p & Hp & _ & Hp2). rewrite (H p Hp) in Hp2. discriminate.
  - destruct Hl as (p & Hp & <- & _).
    assert (Hin : lane_id p ∈ lane_ids det).
    { unfold lane_ids. apply list_elem_of_fmap. exists p. auto. }
    rewrite Hids in Hin. unfold lane_ids, new_detection_system in Hin.
    cbn [processors] in Hin.
    apply list_elem_of_fmap in Hin as (q & -> & Hq).
    destruct (build_processors_ids paths 1) as [Hlow _].
    exact (proj1 (Forall_forall _ _) Hlow q Hq).
Qed.

(** X11.  While the lane the check returns is the active lane itself (the
    ambulance is in the lane being served and in no lower-numbered one, and
    no override is pending), the loop iterates without sleeping: any number
    of iterations leaves the clock, the signals, the log and all counters
    as they were, each iteration reading the sensors once. *)
Theorem ambulance_in_active_lane_spins (w : World) (s : Machine)
    (video_paths : list string) (k : nat) :
  truthy (force_emergency_lane (ctl s)) = false ->
  (forall n, exists det,
     sensors w (clock s) n = inr det
     /\ lane_ids det = lane_ids (new_detection_system video_paths)
     /\ reports_ambulance det (current_lane (ctl s))
     /\ (forall l', reports_ambulance det l' -> current_lane (ctl s) <= l')) ->
  let s' := Nat.iter k (run_iteration w) s in
  clock s' = clock s
  /\ reads s' = (reads s + k)%nat
  /\ signals s' = signals s
  /\ db s' = db s
  /\ lane_states (ctl s') = lane_states (ctl s)
  /\ current_lane (ctl s') = current_lane (ctl s)
  /\ cycle_count (ctl s') = cycle_count (ctl s)
  /\ emergency_count (ctl s') = emergency_count (ctl s)
  /\ total_wait_time_saved (ctl s') = total_wait_time_saved (ctl s).
Proof.
  intros Hf Hsens. cbv zeta.
  assert (H : let s' := Nat.iter k (run_iteration w) s in
              force_emergency_lane (ctl s') = force_emergency_lane (ctl s)
              /\ clock s' = clock s /\ reads s' = (reads s + k)%nat
              /\ signals s' = signals s /\ db s' = db s
              /\ lane_states (ctl s') = lane_states (ctl s)
              /\ current_lane (ctl s') = current_lane (ctl s)
              /\ cycle_count (ctl s') = cycle_count (ctl s)
              /\ emergency_count (ctl s') = emergency_count (ctl s)
              /\ total_wait_time_saved (ctl s') = total_wait_time_saved (ctl s)).
  { induction k as [|k IH]; cbv zeta in *.
    - rewrite Nat.add_0_r. repeat split.
    - change (Nat.iter (S k) (run_iteration w) s)
        with (run_iteration w (Nat.iter k (run_iteration w) s)).
      set (sk := Nat.iter k (run_iteration w) s) in *.
      destruct IH as (I0 & I1 & I2 & I3 & I4 & I5 & I6 & I7 & I8 & I9).
      pose proof (run_iteration_cases w sk) as H. cbv zeta in H.
      rewrite check_emergency_conditions_scan in H by (rewrite I0; exact Hf).
      cbn [fst snd] in H. rewrite I1 in H.
      destruct (Hsens (reads sk)) as (det & Hd & Hids & Hrep & Hmin).
      rewrite Hd in H.
      destruct (first_ambulance_is det video_paths _ Hids Hrep Hmin) as [Hfa Hpos].
      rewrite Hfa in H. cbn [truthy default ctl] in H.
      destruct (Z.eqb_spec (current_lane (ctl s)) 0) as [|_]; [lia|].
      cbn [negb] in H. rewrite I6 in H. unfold id in H.
      destruct (decide (current_lane (ctl s) = current_lane (ctl s)));
        [|contradiction].
      rewrite H. cbn. rewrite I2. repeat split; try assumption. lia. }
  cbv zeta in H. tauto.
Qed.

Lemma ambulance_in_active_lane_spins_witness :
  let s' := Nat.iter 5 (run_iteration siren_world) (exec run_init boot) in
  clock s' = 0 /\ reads s' = 5%nat /\ cycle_count (ctl s') = 0.
Proof.
  destruct (ambulance_in_active_lane_spins siren_world (exec run_init boot)
              ["lane1.mp4"; "lane2.mp4"; "lane3.mp4"; "lane4.mp4"]%string 5)
    as (H1 & H2 & _ & _ & _ & _ & H3 & _).
  - reflexivity.
  - intros n. exists ambulance_in_lane_1.
    split; [reflexivity | split; [reflexivity | split]].
    + eexists. split; [left | split; reflexivity].
    + intros l' (p & Hp & <- & Ha).
      cbn in Hp. repeat (apply elem_of_cons in Hp as [->|Hp]; [cbn in *; try discriminate; try lia|]).
      inversion Hp.
  - cbv zeta. rewrite H1, H2, H3. repeat split.
Defined.

(** X13.  Whatever lane is active when a normal cycle starts, also one
    outside 1..4 that an override put there, the cycle ends with a
    different active lane, and one of the lanes 1 to 4. *)
Theorem normal_cycle_lane_in_range (w : World) (s : Machine)
    (det : MultiLaneDetectionSystem) :
  sensors w (clock s) (reads s) = inr det ->
  let s' := exec (handle_normal_cycle w) s in
  1 <= current_lane (ctl s') <= 4
  /\ current_lane (ctl s') <> current_lane (ctl s).
Proof.
  intros Hs. cbv zeta.
  destruct (handle_normal_cycle_after w s det Hs) as [_ Ha].
  apply after_fields in Ha. destruct Ha as (_&A&_). rewrite A.
  cbn [current_lane].
  pose proof (Z.mod_pos_bound (current_lane (ctl s)) 4 ltac:(lia)) as Hb.
  split; [lia|]. intros E.
  assert (Hm : current_lane (ctl s) `mod` 4
               = (current_lane (ctl s) `mod` 4 + 1) `mod` 4) by congruence.
  assert (Hc : current_lane (ctl s) `mod` 4 = 3
               \/ current_lane (ctl s) `mod` 4 < 3) by lia.
  destruct Hc as [Hc|Hc].
  - rewrite Hc in Hm. vm_compute in Hm. discriminate.
  - rewrite (Z.mod_small (_ + 1)) in Hm by lia. lia.
Qed.

Lemma normal_cycle_lane_in_range_witness :
  let s := upd_ctl (set_current_lane 7) (exec run_init boot) in
  let s' := exec (handle_normal_cycle still_world) s in
  1 <= current_lane (ctl s') <= 4
  /\ current_lane (ctl s') <> current_lane (ctl s).
Proof.
  exact (normal_cycle_lane_in_range still_world
           (upd_ctl (set_current_lane 7) (exec run_init boot))
           quiet_system eq_refl).
Defined.

(** X14.  A manual override is served even when the detection system
    fails: the check returns it without touching the sensors, the handler
    makes the transition and counts the emergency, and only then the failed
    read for the log ends the iteration, so that the lane is GREEN but
    nothing is logged, the cycle is not counted and the loop goes on after
    the 5 s of the except clause instead of the 45 s emergency green. *)
Theorem override_served_despite_sensor_failure (w : World) (s : Machine)
    (l : Z) (e : Exn) :
  force_emergency_lane (ctl s) = Some l -> l <> 0 ->
  current_lane (ctl s) <> l ->
  yellow_duration (ctl s) = 3 -> transition_delay (ctl s) = 2 ->
  sensors w (clock s + 3 + 2) (reads s) = inl e ->
  let s' := run_iteration w s in
  lane_states (ctl s') !! l = Some GREEN
  /\ current_lane (ctl s') = l
  /\ signals s' =
       transition_writes (lane_states (ctl s)) (current_lane (ctl s)) l
         (clock s) 3 2 ++ signals s
  /\ clock s' = clock s + 3 + 2 + 5
  /\ emergency_count (ctl s') = emergency_count (ctl s) + 1
  /\ cycle_count (ctl s') = cycle_count (ctl s)
  /\ db s' = db s.
Proof.
  intros Hf Hl Hne Hy Hd Hs. cbv zeta.
  pose proof (run_iteration_cases w s) as H. cbv zeta in H.
  rewrite (check_emergency_conditions_forced w s l Hf Hl) in H.
  cbn [fst snd truthy default] in H.
  destruct (Z.eqb_spec l 0) as [|_]; [contradiction|]. cbn [negb] in H.
  unfold id in H.
  cbn [upd_ctl ctl clock reads signals db set_force_emergency_lane
       yellow_duration transition_delay current_lane lane_states] in H.
  destruct (decide (current_lane (ctl s) = l)) as [|_]; [contradiction|].
  rewrite Hy, Hd in H. change (Z.max 0 3) with 3 in H.
  change (Z.max 0 2) with 2 in H. rewrite Hs in H.
  apply after_fields in H.
  destruct H as (A1&A2&_&_&_&A3&A4&_&A5&_&A6&A7&_).
  repeat split; try assumption.
  rewrite A1. apply lookup_insert_eq.
Qed.

Lemma override_served_despite_sensor_failure_witness :
  let s' := run_iteration blind_world (force_emergency 3 (exec run_init boot)) in
  current_lane (ctl s') = 3 /\ clock s' = 10 /\ cycle_count (ctl s') = 0.
Proof.
  destruct (override_served_despite_sensor_failure blind_world
              (force_emergency 3 (exec run_init boot)) 3
              (Exception "camera offline"))
    as (_ & H1 & _ & H2 & _ & H3 & _);
    [reflexivity | lia | intros Hx; vm_compute in Hx; discriminate
    | reflexivity ..|].
  cbv zeta. rewrite H1, H2, H3. repeat split.
Defined.

(** X15.  After an emergency switch to lane [E] the round robin goes on
    from [E]: the next normal cycle hands the green to lane [E mod 4 + 1],
    so the lanes between the interrupted lane and [E] are skipped. *)
Theorem round_robin_resumes_after_emergency (w : World) (s : Machine) (E : Z)
    (det det' : MultiLaneDetectionSystem) :
  let y := Z.max 0 (yellow_duration (ctl s)) in
  let d := Z.max 0 (transition_delay (ctl s)) in
  current_lane (ctl s) <> E ->
  sensors w (clock s + y + d) (reads s) = inr det ->
  sensors w (clock s + y + d + 45) (S (reads s)) = inr det' ->
  let s1 := exec (handle_emergency_override w E) s in
  let s2 := exec (handle_normal_cycle w) s1 in
  current_lane (ctl s1) = E
  /\ current_lane (ctl s2) = E `mod` 4 + 1
  /\ lane_states (ctl s2) !! (E `mod` 4 + 1) = Some GREEN
  /\ cycle_count (ctl s2) = cycle_count (ctl s) + 2.
Proof.
  cbv zeta. intros Hne Hs Hs'.
  destruct (handle_emergency_override_after w E s det Hne Hs) as [_ Ha].
  apply after_fields in Ha.
  destruct Ha as (_&A1&_&_&_&A2&_&_&A3&A4&_).
  cbn [current_lane cycle_count] in A1, A2.
  set (s1 := exec (handle_emergency_override w E) s) in *.
  rewrite <- A3, <- A4 in Hs'.
  destruct (handle_normal_cycle_after w s1 det' Hs') as [_ Hb].
  apply after_fields in Hb.
  destruct Hb as (B0&B1&_&_&_&B2&_).
  cbn [current_lane cycle_count lane_states] in B0, B1, B2.
  rewrite B0, B1, B2, A1, A2.
  repeat split; [apply lookup_insert_eq | lia].
Qed.

Lemma round_robin_resumes_after_emergency_witness :
  current_lane
    (ctl (exec (handle_normal_cycle still_world)
            (exec (handle_emergency_override still_world 3)
               (exec run_init boot)))) = 4.
Proof.
  destruct (round_robin_resumes_after_emergency still_world
              (exec run_init boot) 3 quiet_system quiet_system)
    as (_ & H & _);
    [intros Hx; vm_compute in Hx; discriminate | reflexivity | reflexivity |].
  rewrite H. reflexivity.
Defined.

(** ** From the frame to the green *)

(** X16.  The green a lane gets is decided by the last frame its processor
    handled: when the active lane's processor has run the detector on a
    last frame [f], the normal cycle holds the green for the tiered
    duration of the number of boxes of class 2, 3, 5 or 7 the model found
    in the resized [f], and this is the duration it hands to the logger. *)
Theorem green_duration_from_last_frame (w : World) (s : Machine)
    (det : MultiLaneDetectionSystem) (m : YOLO) (conf : Q)
    (resize : Frame -> Frame) (p : LaneVideoProcessor)
    (reads_made : list (option Frame)) (f : Frame) :
  sensors w (clock s) (reads s) = inr det ->
  db_fault w (clock s) = None ->
  1 <= current_lane (ctl s) ->
  processors det !! Z.to_nat (current_lane (ctl s) - 1)
  = Some (processor_run (new_detector m conf) resize p reads_made) ->
  last (omap id reads_made) = Some f ->
  let vehicles :=
    Z.of_nat (length (filter (fun c => c ∈ [2; 3; 5; 7])
                        (boxes (infer m conf (resize f))))) in
  let s' := exec (handle_normal_cycle w) s in
  (exists x, first_write_after s s' = Some x
             /\ to_state x = YELLOW
             /\ at_time x = clock s + calculate_green_duration vehicles)
  /\ (exists r, db s' = r :: db s
                /\ sum_values (vehicle_counts r) = vehicles
                /\ green_duration r = calculate_green_duration vehicles).
Proof.
  intros Hs Hdb Hl Hp Hlast. cbv zeta.
  destruct (handle_normal_cycle_after w s det Hs) as [_ Ha].
  rewrite Hdb in Ha.
  assert (Hdata : get_lane_data det (current_lane (ctl s))
                  = detect (new_detector m conf) (Some (resize f))).
  { unfold get_lane_data. rewrite Hp.
    pose proof (lookup_lt_Some _ _ _ Hp) as Hlen.
    destruct (Z.leb_spec 1 (current_lane (ctl s))); [|lia].
    destruct (Z.leb_spec (current_lane (ctl s))
                (Z.of_nat (length (processors det)))); [|lia].
    cbn [andb].
    destruct (processor_run_data (new_detector m conf) resize p reads_made)
      as (_ & _ & Hd).
    rewrite Hd, Hlast. reflexivity. }
  rewrite Hdata, detect_total in Ha.
  apply after_fields in Ha.
  destruct Ha as (_&_&_&_&_&_&_&_&_&_&A1&A2&_).
  split.
  - unfold first_write_after. rewrite A1. cbn [length].
    replace (S (S (S (length (signals s)))) - length (signals s))%nat
      with 3%nat by lia.
    cbn. eauto.
  - eexists. split; [exact A2|]. cbn [vehicle_counts green_duration].
    split; [apply detect_total | reflexivity].
Qed.

Lemma green_duration_from_last_frame_witness :
  exists x,
    first_write_after (exec run_init boot)
      (exec (handle_normal_cycle filmed_world) (exec run_init boot)) = Some x
    /\ to_state x = YELLOW /\ at_time x = 15.
Proof.
  refine (proj1 (green_duration_from_last_frame filmed_world
                   (exec run_init boot) filmed_lane
                   coco_model (1 # 2) (fun f => f) (new_processor 1 "lane1.mp4")
                   [Some (Image 1); None; Some (Image 2); None] (Image 2)
                   eq_refl eq_refl _ eq_refl eq_refl)).
  vm_compute. discriminate.
Defined.

(** ** The phases of a transition *)

(** One iteration keeps the two phase durations and either leaves the
    signals alone or appends one transition away from the active lane, with
    these durations. *)
Lemma run_iteration_transition w s :
  let s' := run_iteration w s in
  yellow_duration (ctl s') = yellow_duration (ctl s)
  /\ transition_delay (ctl s') = transition_delay (ctl s)
  /\ ((lane_states (ctl s') = lane_states (ctl s)
       /\ current_lane (ctl s') = current_lane (ctl s)
       /\ signals s' = signals s)
      \/ exists b t,
           lane_states (ctl s') =
             <[b := GREEN]> (<[current_lane (ctl s) := RED]>
               (<[current_lane (ctl s) := YELLOW]> (lane_states (ctl s))))
           /\ current_lane (ctl s') = b
           /\ signals s' =
                transition_writes (lane_states (ctl s)) (current_lane (ctl s)) b t
                  (Z.max 0 (yellow_duration (ctl s)))
                  (Z.max 0 (transition_delay (ctl s)))
                ++ signals s).
Proof.
  cbv zeta.
  pose proof (run_iteration_cases w s) as H. cbv zeta in H.
  destruct (check_emergency_conditions_frame w s) as (F1 & F2 & F3 & _).
  destruct (check_emergency_conditions_counters w s) as (_ & G2 & G3 & _).
  destruct (check_emergency_conditions w s) as [[el|e] s1]; cbn [fst snd] in *.
  2: { apply after_fields in H. destruct H as (A1&A2&_&A4&A5&_&_&_&_&_&A3&_).
       repeat split; try congruence. left. repeat split; congruence. }
  destruct (truthy el).
  - destruct (decide (current_lane (ctl s1) = default 0 el)).
    + rewrite H. cbn. repeat split; try assumption. left. auto.
    + destruct (sensors w _ (reads s1));
        apply after_fields in H;
        destruct H as (A1&A2&_&A4&A5&_&_&_&_&_&A3&_);
        cbn in A1, A2, A4, A5; rewrite F1, F2, F3, G2, G3 in *;
        (repeat split; try assumption; right; eauto).
  - destruct (sensors w (clock s1) (reads s1));
      apply after_fields in H;
      destruct H as (A1&A2&_&A4&A5&_&_&_&_&_&A3&_);
      cbn -[Z.modulo] in A1, A2, A4, A5; rewrite F1, F2, F3, G2, G3 in *;
      (repeat split; try assumption).
    + left. auto.
    + right. eauto.
Qed.

(** X17.  The green never passes directly from one lane to another: in the
    history of a run every GREEN after the first comes 2 s after the
    previously green lane was set RED, at which moment every lane was RED,
    and that RED comes 3 s after the same lane was set YELLOW. *)
Theorem green_changes_through_yellow_and_all_red (w : World) (fuel : nat) :
  phases_ok (signals (run w fuel boot).2).
Proof.
  unfold run.
  apply (run_loop_invariant
           (fun s =>
              phases_ok (signals s)
              /\ (exists g, head (signals s) = Some g
                            /\ on_lane g = current_lane (ctl s))
              /\ only_lane (lane_states (ctl s)) (current_lane (ctl s))
              /\ yellow_duration (ctl s) = 3
              /\ transition_delay (ctl s) = 2)).
  - intros s (I1 & I2 & I3 & I4 & I5).
    destruct (run_iteration_transition w s)
      as (Y & D & [(E1 & E2 & E3) | (b & t & E1 & E2 & E3)]).
    + rewrite E1, E2, E3, Y, D. auto.
    + rewrite E1, E2, E3, Y, D, I4, I5.
      change (Z.max 0 3) with 3. change (Z.max 0 2) with 2.
      destruct (transition_tables_ok _ _ b I3) as (_ & T2 & T3).
      cbn [transition_writes app phases_ok to_state on_lane at_time table head].
      repeat split; try assumption; try reflexivity; try lia.
      * intros l st Hl. destruct st; [reflexivity | |]; exfalso.
        -- assert (l = b) by (apply (T2 l _ Hl); discriminate). subst l.
           destruct (transition_tables_ok _ _ (b + 1) I3) as (_ & T2' & _).
           assert (b = b + 1) by (apply (T2' b _ Hl); discriminate). lia.
        -- assert (l = b) by (apply (T2 l _ Hl); discriminate). subst l.
           destruct (transition_tables_ok _ _ (b + 1) I3) as (_ & T2' & _).
           assert (b = b + 1) by (apply (T2' b _ Hl); discriminate). lia.
      * eexists. split; reflexivity.
  - intros s Hs. exact Hs.
  - split; [reflexivity|]. split; [eexists; split; reflexivity|].
    split; [apply run_init_signals_ok | split; reflexivity].
Qed.
